(** * Verification of [utils/validate_versions.py]

    The script keeps the version strings of the Python packages, of the Unity
    package manifest and of [Academy.cs] in step.  It either checks that the
    three [__init__.py] files carry the same [__version__] line
    ([check_versions]) or rewrites all of them ([set_version]).

    Modelling choices.
    - A Python [str] is a [string]; a character is a code point below 256.
    - The file system is a finite map from paths to file contents, together
      with the directories that exist ([Disk]); the script creates and
      removes no directory.  Opening a missing file for reading raises
      [FileNotFoundError].  Opening for writing replaces the content of an
      existing file, creates the file when its directory exists, and raises
      [FileNotFoundError] otherwise; permissions are not modelled.  Text
      files are read with universal newlines (the default of [open]) and
      written on a POSIX system, where a line feed is written as it is.
    - [print] appends one entry to the console log.
    - A function that may raise returns an [outcome] together with the world
      it leaves behind, so what was written before an exception stays
      written.
    - The [json] module is an interface ([JsonCodec]); the values it
      produces are the inductive type [json]. *)

From Stdlib Require Import Ascii.
From stdpp Require Import gmap strings list fin_maps pretty.

Set Warnings "-clear-no-such-hyp".


(** ** Characters *)

Module Char.
Definition LF : ascii := "010"%char.
Definition CR : ascii := "013"%char.
Definition DQ : ascii := "034"%char.
Definition LBRACE : ascii := "123"%char.
Definition RBRACE : ascii := "125"%char.

(** [str.isspace] on one character, for code points below 256. *)
Definition isspace (c : ascii) : bool :=
  match c with
  | "009" | "010" | "011" | "012" | "013"
  | "028" | "029" | "030" | "031" | "032"
  | "133" | "160" => true
  | _ => false
  end%char.
End Char.

(** ** The methods of [str] the script calls *)

Module Str.
Import Char.

Definition nl : string := String LF "".
Definition quote : string := String DQ "".

(** [s[n:]] *)
Fixpoint drop (n : nat) (s : string) : string :=
  match n, s with
  | 0, _ => s
  | S _, "" => ""
  | S k, String _ r => drop k r
  end.

(** [s.startswith(p)] *)
Definition startswith (p s : string) : bool := String.prefix p s.

(** [s.partition(sep)], as an option: the text before the first occurrence
    of [sep] and the text after it, or nothing when [sep] does not occur. *)
Fixpoint cut (sep s : string) : option (string * string) :=
  if startswith sep s then Some ("", drop (String.length sep) s)
  else match s with
       | "" => None
       | String c r =>
           match cut sep r with
           | Some (a, b) => Some (String c a, b)
           | None => None
           end
       end.

(** [sub in s] *)
Definition contains (sub s : string) : bool :=
  match cut sub s with Some _ => true | None => false end.

(** [s.split(sep)] for a separator that is not empty (the only call passes a
    literal).  Every cut consumes at least one character, so [length s] cuts
    are enough. *)
Fixpoint split_upto (n : nat) (sep s : string) : list string :=
  match n with
  | 0 => [s]
  | S k =>
      match cut sep s with
      | None => [s]
      | Some (a, b) => a :: split_upto k sep b
      end
  end.

Definition split (sep s : string) : list string :=
  split_upto (String.length s) sep s.

(** [s.replace(old, new)] for [old] not empty: the occurrences are found
    from left to right and do not overlap. *)
Fixpoint replace_upto (n : nat) (old new s : string) : string :=
  match n with
  | 0 => s
  | S k =>
      match cut old s with
      | None => s
      | Some (a, b) => a +:+ new +:+ replace_upto k old new b
      end
  end.

Definition replace (old new s : string) : string :=
  replace_upto (String.length s) old new s.

Fixpoint lstrip (s : string) : string :=
  match s with
  | "" => ""
  | String c r => if isspace c then lstrip r else s
  end.

Fixpoint rstrip (s : string) : string :=
  match s with
  | "" => ""
  | String c r =>
      match rstrip r with
      | "" => if isspace c then "" else String c ""
      | r' => String c r'
      end
  end.

(** [s.strip()] *)
Definition strip (s : string) : string := rstrip (lstrip s).

(** Universal newlines on reading: CR LF and a lone CR become LF. *)
Fixpoint translate_newlines (s : string) : string :=
  match s with
  | "" => ""
  | String c r =>
      if decide (c = CR) then
        match r with
        | String c' r' =>
            if decide (c' = LF) then String LF (translate_newlines r')
            else String LF (translate_newlines r)
        | "" => String LF ""
        end
      else String c (translate_newlines r)
  end.

(** The lines of a text, each with its line feed; the last one may lack
    it. *)
Fixpoint splitlines (s : string) : list string :=
  match s with
  | "" => []
  | String c r =>
      if decide (c = LF) then nl :: splitlines r
      else match splitlines r with
           | [] => [String c ""]
           | l :: ls => String c l :: ls
           end
  end.

(** [f.writelines(lines)] writes the concatenation. *)
Definition join_lines (ls : list string) : string := String.concat "" ls.
End Str.

(** ** Exceptions, outcomes and the world *)

Inductive exn : Type :=
  | FileNotFoundError (path : string)
  | JSONDecodeError
  | TypeError
  | ValueError
  | KeyError (key : string)
  | RuntimeError (msg : string).

Inductive outcome (A : Type) : Type :=
  | Ok (a : A)
  | Raise (e : exn).
Arguments Ok {A} a.
Arguments Raise {A} e.

(** The files on disk and what has been printed so far. *)
Record World : Type := mkWorld {
  files : gmap string string;
  stdout : list string
}.

(** A computation reads and changes the world and returns or raises. *)
Definition M (A : Type) : Type := World -> outcome A * World.

Definition ret {A} (a : A) : M A := fun w => (Ok a, w).

Definition raise {A} (e : exn) : M A := fun w => (Raise e, w).

Definition bind {A B} (m : M A) (k : A -> M B) : M B :=
  fun w =>
    match m w with
    | (Ok a, w') => k a w'
    | (Raise e, w') => (Raise e, w')
    end.

Definition lift {A} (o : outcome A) : M A := fun w => (o, w).

Notation "x <- m ;; k" := (bind m (fun x => k))
  (at level 100, m at next level, right associativity).
Notation "m ;; k" := (bind m (fun _ => k))
  (at level 100, right associativity).

(** A [for] loop whose body only acts on the world. *)
Fixpoint for_each {A} (xs : list A) (body : A -> M unit) : M unit :=
  match xs with
  | [] => ret tt
  | x :: rest => body x ;; for_each rest body
  end.

(** A [for] loop that also updates a local variable. *)
Fixpoint for_fold {A S} (xs : list A) (s : S) (body : S -> A -> M S) : M S :=
  match xs with
  | [] => ret s
  | x :: rest => s' <- body s x ;; for_fold rest s' body
  end.

(** [open(path).read()] in text mode. *)
Definition read_text (path : string) : M string :=
  fun w =>
    match files w !! path with
    | Some content => (Ok (Str.translate_newlines content), w)
    | None => (Raise (FileNotFoundError path), w)
    end.

(** [open(path).readlines()] *)
Definition readlines (path : string) : M (list string) :=
  text <- read_text path ;; ret (Str.splitlines text).

(** [os.path.dirname(p)] on POSIX: the text up to the last slash, without
    its trailing slashes unless it is made of slashes only. *)
Fixpoint head_to_last_slash (s : string) : option string :=
  match s with
  | "" => None
  | String c r =>
      match head_to_last_slash r with
      | Some h => Some (String c h)
      | None => if decide (c = "/"%char) then Some (String c "") else None
      end
  end.

Fixpoint all_slashes (s : string) : bool :=
  match s with
  | "" => true
  | String c r => bool_decide (c = "/"%char) && all_slashes r
  end.

Fixpoint rstrip_slashes (s : string) : string :=
  match s with
  | "" => ""
  | String c r =>
      match rstrip_slashes r with
      | "" => if decide (c = "/"%char) then "" else String c ""
      | r' => String c r'
      end
  end.

Definition dirname (p : string) : string :=
  match head_to_last_slash p with
  | None => ""
  | Some head => if all_slashes head then head else rstrip_slashes head
  end.

(** The directories that exist.  The script creates and removes none, so
    they are the same throughout a run. *)
Class Disk : Type := {
  dir_exists : string -> bool
}.

(** Whether [open(path, "w")] succeeds: the file is there, or it can be
    created because its directory is there (an empty directory name is the
    current directory). *)
Definition can_write `{Disk} (fs : gmap string string) (path : string) : bool :=
  bool_decide (is_Some (fs !! path)) ||
  bool_decide (dirname path = "") ||
  dir_exists (dirname path).

(** [open(path, "w").write(content)] *)
Definition write_text `{Disk} (path content : string) : M unit :=
  fun w =>
    if can_write (files w) path
    then (Ok tt, mkWorld (<[path := content]> (files w)) (stdout w))
    else (Raise (FileNotFoundError path), w).

Definition print (line : string) : M unit :=
  fun w => (Ok tt, mkWorld (files w) (stdout w ++ [line])).

(** [os.path.join(a, b)] on POSIX. *)
Definition path_join (a b : string) : string :=
  if Str.startswith "/" b then b
  else if decide (a = "") then b
  else if decide (Str.drop (String.length a - 1) a = "/") then a +:+ b
  else a +:+ "/" +:+ b.

(** [str(x)] for an optional string: [None] prints as the word None. *)
Definition str_of_optional (s : option string) : string :=
  match s with Some s => s | None => "None" end.

(** Truthiness of an optional string: [None] and the empty string are
    false. *)
Definition truthy (s : option string) : bool :=
  match s with
  | Some s => if decide (s = "") then false else true
  | None => false
  end.

(** ** [str.format] with keyword arguments

    Replacement fields hold a plain name; a doubled brace stands for one
    brace.  A lone closing brace or an unclosed field is a [ValueError], a
    name that is not among the keywords a [KeyError]. *)

Fixpoint kw_lookup (name : string) (kwargs : list (string * string)) : option string :=
  match kwargs with
  | [] => None
  | (k, v) :: rest => if decide (k = name) then Some v else kw_lookup name rest
  end.

Definition outcome_map {A B} (f : A -> B) (o : outcome A) : outcome B :=
  match o with Ok a => Ok (f a) | Raise e => Raise e end.

Fixpoint format_go (kwargs : list (string * string)) (field : option string)
    (s : string) : outcome string :=
  match s with
  | "" => match field with None => Ok "" | Some _ => Raise ValueError end
  | String c r =>
      match field with
      | Some name =>
          if decide (c = Char.RBRACE) then
            match kw_lookup name kwargs with
            | Some v => outcome_map (String.append v) (format_go kwargs None r)
            | None => Raise (KeyError name)
            end
          else format_go kwargs (Some (name +:+ String c "")) r
      | None =>
          if decide (c = Char.LBRACE) then
            match r with
            | String c' r' =>
                if decide (c' = Char.LBRACE)
                then outcome_map (String c) (format_go kwargs None r')
                else format_go kwargs (Some "") r
            | "" => Raise ValueError
            end
          else if decide (c = Char.RBRACE) then
            match r with
            | String c' r' =>
                if decide (c' = Char.RBRACE)
                then outcome_map (String c) (format_go kwargs None r')
                else Raise ValueError
            | "" => Raise ValueError
            end
          else outcome_map (String c) (format_go kwargs None r)
      end
  end.

Definition format (template : string) (kwargs : list (string * string)) : outcome string :=
  format_go kwargs None template.

(** ** JSON values and the [json] module *)

#[warnings="-register-all"]
Inductive json : Type :=
  | JNull
  | JBool (b : bool)
  | JInt (n : Z)
  | JFloat (repr : string)
  | JStr (s : string)
  | JArr (items : list json)
  | JObj (fields : list (string * json)).

(** [json.loads] and [json.dumps(_, indent=n)]; [None] stands for
    [JSONDecodeError]. *)
Class JsonCodec : Type := {
  json_loads : string -> option json;
  json_dumps : nat -> json -> string
}.

(** A [dict] keeps its keys in insertion order. *)
Fixpoint dict_get (k : string) (d : list (string * json)) : option json :=
  match d with
  | [] => None
  | (k', v) :: rest => if decide (k' = k) then Some v else dict_get k rest
  end.

Definition dict_has (k : string) (d : list (string * json)) : bool :=
  match dict_get k d with Some _ => true | None => false end.

(** [d[k] = v]: an existing key keeps its place, a new one goes last. *)
Fixpoint dict_set (k : string) (v : json) (d : list (string * json)) : list (string * json) :=
  match d with
  | [] => [(k, v)]
  | (k', v') :: rest =>
      if decide (k' = k) then (k', v) :: rest else (k', v') :: dict_set k v rest
  end.

(** [k in x] for a string [k] and a value read from JSON. *)
Definition py_in (k : string) (x : json) : outcome bool :=
  match x with
  | JObj d => Ok (dict_has k d)
  | JArr items =>
      Ok (existsb (fun y => match y with JStr s => bool_decide (s = k) | _ => false end) items)
  | JStr s => Ok (Str.contains k s)
  | JNull | JBool _ | JInt _ | JFloat _ => Raise TypeError
  end.

(** [x[k] = v] for a string [k]: only a [dict] accepts it. *)
Definition py_setitem (k : string) (v : json) (x : json) : outcome json :=
  match x with
  | JObj d => Ok (JObj (dict_set k v d))
  | _ => Raise TypeError
  end.

(** ** The script *)

Definition VERSION_LINE_START : string := "__version__ = ".

Definition DIRECTORIES : list string :=
  [ "ml-agents/mlagents/trainers";
    "ml-agents-envs/mlagents_envs";
    "gym-unity/gym_unity" ].

Definition UNITY_PACKAGE_JSON_PATH : string := "com.unity.ml-agents/package.json".
Definition ACADEMY_PATH : string := "com.unity.ml-agents/Runtime/Academy.cs".

Definition PYTHON_VERSION_FILE_TEMPLATE : string := "
# Version of the library that will be used to upload to pypi
__version__ = {version}

# Git tag that will be checked to determine whether to trigger upload to pypi
__release_tag__ = {release_tag}
".

(** Returns [s] in double quotes if it is not [None], else the word None. *)
Definition _escape_non_none (s : option string) : string :=
  match s with
  | Some s => Str.quote +:+ s +:+ Str.quote
  | None => "None"
  end.

(** The loop of [extract_version_string] over the lines read. *)
Fixpoint first_version_line (lines : list string) : option string :=
  match lines with
  | [] => None
  | l :: rest =>
      if Str.startswith VERSION_LINE_START l
      then Some (Str.strip (Str.replace VERSION_LINE_START "" l))
      else first_version_line rest
  end.

Definition extract_version_string (filename : string) : M (option string) :=
  lines <- readlines filename ;;
  ret (first_version_line lines).

Definition check_versions : M bool :=
  version_by_dir <-
    for_fold DIRECTORIES (∅ : gmap string (option string))
      (fun version_by_dir directory =>
         let path := path_join directory "__init__.py" in
         version <- extract_version_string path ;;
         print ("Found version " +:+ str_of_optional version +:+ " for " +:+ directory) ;;
         ret (<[directory := version]> version_by_dir)) ;;
  (* Make sure we have exactly one version, and it's not none *)
  let versions : gset (option string) := map_img version_by_dir in
  if bool_decide (size versions ≠ 1) || bool_decide (None ∈ versions) then
    print "Each setup.py must have the same VERSION string." ;;
    ret false
  else ret true.

Section WithJson.
Context `{JsonCodec} `{Disk}.

Definition set_package_version (new_version : string) : M unit :=
  text <- read_text UNITY_PACKAGE_JSON_PATH ;;
  package_json <-
    lift (match json_loads text with
          | Some j => Ok j
          | None => Raise JSONDecodeError
          end) ;;
  has_version <- lift (py_in "version" package_json) ;;
  package_json <-
    (if has_version : bool
     then lift (py_setitem "version" (JStr new_version) package_json)
     else ret package_json) ;;
  write_text UNITY_PACKAGE_JSON_PATH (json_dumps 2 package_json).
End WithJson.

Definition needle : string := "internal const string k_PackageVersion".

(** The line [set_academy_version_string] puts in place of a marker line. *)
Definition academy_line (left_ new_version : string) : string :=
  let right_ := " = " +:+ Str.quote +:+ new_version +:+ Str.quote +:+ ";" +:+ Str.nl in
  left_ +:+ right_.

(** The loop over [enumerate(lines)]: the iterator reads [lines[i]] from the
    list the body assigns to, and stops at its end; [n] bounds the number of
    rounds and is the length of the list. *)
Fixpoint academy_loop (n i : nat) (new_version : string)
    (lines : list string) (found : nat) : outcome (list string * nat) :=
  match n with
  | 0 => Ok (lines, found)
  | S n' =>
      match lines !! i with
      | None => Ok (lines, found)
      | Some l =>
          if Str.contains needle l then
            match Str.split " = " l with
            | [left_; right_] =>
                academy_loop n' (S i) new_version
                  (<[i := academy_line left_ new_version]> lines) (S found)
            | _ => Raise ValueError
            end
          else academy_loop n' (S i) new_version lines found
      end
  end.

Definition found_message (found : nat) : string :=
  "Expected to find search string " +:+ Str.quote +:+ needle +:+ Str.quote +:+
  " exactly once, but found it " +:+ pretty found +:+ " times".

Definition set_academy_version_string `{Disk} (new_version : string) : M unit :=
  lines <- readlines ACADEMY_PATH ;;
  r <- lift (academy_loop (length lines) 0 new_version lines 0) ;;
  let '(lines, found) := r in
  if decide (found ≠ 1) then raise (RuntimeError (found_message found))
  else write_text ACADEMY_PATH (Str.join_lines lines).

(** The command line after [argparse]. *)
Record Args : Type := mkArgs {
  python_version : option string;
  csharp_version : option string;
  release_tag : option string;
  files_arg : list string
}.

Section Writer.
Context `{JsonCodec} `{Disk}.

Definition set_version (python_version csharp_version release_tag : option string) : M unit :=
  new_contents <-
    lift (format PYTHON_VERSION_FILE_TEMPLATE
            [ ("version", _escape_non_none python_version);
              ("release_tag", _escape_non_none release_tag) ]) ;;
  for_each DIRECTORIES
    (fun directory =>
       let path := path_join directory "__init__.py" in
       print ("Setting " +:+ path +:+ " to version " +:+ str_of_optional python_version) ;;
       write_text path new_contents) ;;
  match csharp_version with
  | Some csharp_version =>
      let package_version := csharp_version +:+ "-preview" in
      print ("Setting package version to " +:+ package_version +:+ " in " +:+
             UNITY_PACKAGE_JSON_PATH) ;;
      set_package_version package_version ;;
      print ("Setting package version to " +:+ package_version +:+ " in " +:+ ACADEMY_PATH) ;;
      set_academy_version_string package_version
  | None => ret tt
  end.

(** The body of [if __name__ == "__main__"]; the result is the exit status
    of the process when no exception escapes. *)
Definition main (args : Args) : M nat :=
  if truthy (python_version args) then
    print ("Updating python library to version " +:+ str_of_optional (python_version args)) ;;
    (if truthy (csharp_version args)
     then print ("Updating C# package to version " +:+ str_of_optional (csharp_version args))
     else ret tt) ;;
    set_version (python_version args) (csharp_version args) (release_tag args) ;;
    ret 0
  else
    ok <- check_versions ;;
    let return_code := if ok : bool then 0 else 1 in
    ret return_code.
End Writer.

(** ** A reference codec

    An executable instance of [JsonCodec] for documents made of objects,
    arrays, strings, integers, booleans and null, written the way
    [json.dumps] writes them (items on their own lines, indented, every
    character outside the printable ASCII range escaped).  The theorems
    below hold for any codec; this one runs them on concrete manifests. *)

Module RefJson.
Import Char.

Definition BACKSLASH : ascii := "092"%char.

(** The lower-case hexadecimal digit of a value below 16, and back. *)
Definition hex_digit (n : nat) : ascii :=
  ascii_of_nat (if bool_decide (n < 10) then 48 + n else 87 + n).

Definition hex_value (c : ascii) : option nat :=
  let n := nat_of_ascii c in
  if bool_decide (48 ≤ n ≤ 57) then Some (n - 48)
  else if bool_decide (97 ≤ n ≤ 102) then Some (n - 87)
  else if bool_decide (65 ≤ n ≤ 70) then Some (n - 55)
  else None.

Definition escape_char (c : ascii) : string :=
  if decide (c = DQ) then String BACKSLASH (String DQ "")
  else if decide (c = BACKSLASH) then String BACKSLASH (String BACKSLASH "")
  else if decide (c = LF) then String BACKSLASH "n"
  else if decide (c = CR) then String BACKSLASH "r"
  else if decide (c = "009"%char) then String BACKSLASH "t"
  else if decide (c = "008"%char) then String BACKSLASH "b"
  else if decide (c = "012"%char) then String BACKSLASH "f"
  else
    let n := nat_of_ascii c in
    if bool_decide (32 ≤ n ≤ 126) then String c ""
    else String BACKSLASH
           (String "u" (String "0" (String "0"
              (String (hex_digit (n / 16)) (String (hex_digit (n mod 16)) ""))))).

Fixpoint escape_body (s : string) : string :=
  match s with
  | "" => ""
  | String c r => escape_char c +:+ escape_body r
  end.

Definition dump_string (s : string) : string :=
  Str.quote +:+ escape_body s +:+ Str.quote.

Fixpoint spaces (n : nat) : string :=
  match n with 0 => "" | S k => String " " (spaces k) end.

Definition newline_indent (indent level : nat) : string :=
  Str.nl +:+ spaces (indent * level).

Fixpoint dump (indent level : nat) (j : json) : string :=
  match j with
  | JNull => "null"
  | JBool true => "true"
  | JBool false => "false"
  | JInt n => pretty n
  | JFloat repr => repr
  | JStr s => dump_string s
  | JArr [] => "[]"
  | JArr (x :: rest) =>
      "[" +:+ newline_indent indent (S level) +:+ dump indent (S level) x +:+
      (fix more (l : list json) : string :=
         match l with
         | [] => ""
         | y :: l' =>
             "," +:+ newline_indent indent (S level) +:+ dump indent (S level) y +:+ more l'
         end) rest +:+
      newline_indent indent level +:+ "]"
  | JObj [] => "{}"
  | JObj ((k, v) :: rest) =>
      "{" +:+ newline_indent indent (S level) +:+
      dump_string k +:+ ": " +:+ dump indent (S level) v +:+
      (fix more (l : list (string * json)) : string :=
         match l with
         | [] => ""
         | (k', v') :: l' =>
             "," +:+ newline_indent indent (S level) +:+
             dump_string k' +:+ ": " +:+ dump indent (S level) v' +:+ more l'
         end) rest +:+
      newline_indent indent level +:+ "}"
  end.

Definition dumps (indent : nat) (j : json) : string := dump indent 0 j.

Definition is_ws (c : ascii) : bool :=
  bool_decide (c = " "%char) || bool_decide (c = "009"%char) ||
  bool_decide (c = LF) || bool_decide (c = CR).

Fixpoint skip_ws (s : string) : string :=
  match s with
  | "" => ""
  | String c r => if is_ws c then skip_ws r else s
  end.

(** The text of a string after its opening quote: the decoded string and
    what follows the closing quote. *)
Fixpoint parse_string_body (s : string) : option (string * string) :=
  match s with
  | "" => None
  | String c r =>
      if decide (c = DQ) then Some ("", r)
      else if decide (c = BACKSLASH) then
        match r with
        | String e r' =>
            let simple (d : ascii) :=
              match parse_string_body r' with
              | Some (body, rest) => Some (String d body, rest)
              | None => None
              end in
            if decide (e = DQ) then simple DQ
            else if decide (e = BACKSLASH) then simple BACKSLASH
            else if decide (e = "/"%char) then simple "/"%char
            else if decide (e = "n"%char) then simple LF
            else if decide (e = "r"%char) then simple CR
            else if decide (e = "t"%char) then simple "009"%char
            else if decide (e = "b"%char) then simple "008"%char
            else if decide (e = "f"%char) then simple "012"%char
            else if decide (e = "u"%char) then
              match r' with
              | String h1 (String h2 (String h3 (String h4 r''))) =>
                  match hex_value h1, hex_value h2, hex_value h3, hex_value h4 with
                  | Some 0, Some 0, Some a, Some b =>
                      match parse_string_body r'' with
                      | Some (body, rest) =>
                          Some (String (ascii_of_nat (16 * a + b)) body, rest)
                      | None => None
                      end
                  | _, _, _, _ => None
                  end
              | _ => None
              end
            else None
        | "" => None
        end
      else if bool_decide (nat_of_ascii c < 32) then None
      else
        match parse_string_body r with
        | Some (body, rest) => Some (String c body, rest)
        | None => None
        end
  end.

Fixpoint parse_digits (acc : N) (s : string) : N * string :=
  match s with
  | String c r =>
      match Ascii.is_nat c with
      | Some d => parse_digits (10 * acc + N.of_nat d) r
      | None => (acc, s)
      end
  | "" => (acc, s)
  end.

(** An integer literal; a fraction or an exponent is outside this codec. *)
Definition parse_int (s : string) : option (Z * string) :=
  let '(neg, s1) :=
    match s with
    | String "-" r => (true, r)
    | _ => (false, s)
    end in
  match s1 with
  | String c _ =>
      if bool_decide (is_Some (Ascii.is_nat c)) then
        let '(n, rest) := parse_digits 0 s1 in
        match rest with
        | String "." _ | String "e" _ | String "E" _ => None
        | _ => Some (if neg : bool then (- Z.of_N n)%Z else Z.of_N n, rest)
        end
      else None
  | "" => None
  end.

Definition expect (word s : string) : option string :=
  if Str.startswith word s then Some (Str.drop (String.length word) s) else None.

Fixpoint parse_value (fuel : nat) (s : string) : option (json * string) :=
  match fuel with
  | 0 => None
  | S fuel =>
      match skip_ws s with
      | "" => None
      | String c r as s' =>
          if decide (c = LBRACE) then
            match skip_ws r with
            | String c' r' =>
                if decide (c' = RBRACE) then Some (JObj [], r')
                else match parse_members fuel r with
                     | Some (kvs, rest) =>
                         Some (JObj (fold_left (fun d kv => dict_set kv.1 kv.2 d) kvs []), rest)
                     | None => None
                     end
            | "" => None
            end
          else if decide (c = "["%char) then
            match skip_ws r with
            | String c' r' =>
                if decide (c' = "]"%char) then Some (JArr [], r')
                else match parse_elements fuel r with
                     | Some (xs, rest) => Some (JArr xs, rest)
                     | None => None
                     end
            | "" => None
            end
          else if decide (c = DQ) then
            match parse_string_body r with
            | Some (body, rest) => Some (JStr body, rest)
            | None => None
            end
          else if decide (c = "n"%char) then
            match expect "null" s' with Some rest => Some (JNull, rest) | None => None end
          else if decide (c = "t"%char) then
            match expect "true" s' with Some rest => Some (JBool true, rest) | None => None end
          else if decide (c = "f"%char) then
            match expect "false" s' with Some rest => Some (JBool false, rest) | None => None end
          else
            match parse_int s' with
            | Some (n, rest) => Some (JInt n, rest)
            | None => None
            end
      end
  end
with parse_elements (fuel : nat) (s : string) : option (list json * string) :=
  match fuel with
  | 0 => None
  | S fuel =>
      match parse_value fuel s with
      | Some (x, rest) =>
          match skip_ws rest with
          | String c r =>
              if decide (c = ","%char) then
                match parse_elements fuel r with
                | Some (xs, rest') => Some (x :: xs, rest')
                | None => None
                end
              else if decide (c = "]"%char) then Some ([x], r)
              else None
          | "" => None
          end
      | None => None
      end
  end
with parse_members (fuel : nat) (s : string) : option (list (string * json) * string) :=
  match fuel with
  | 0 => None
  | S fuel =>
      match skip_ws s with
      | String q r =>
          if decide (q = DQ) then
            match parse_string_body r with
            | Some (k, r1) =>
                match skip_ws r1 with
                | String colon r2 =>
                    if decide (colon = ":"%char) then
                      match parse_value fuel r2 with
                      | Some (v, r3) =>
                          match skip_ws r3 with
                          | String c r4 =>
                              if decide (c = ","%char) then
                                match parse_members fuel r4 with
                                | Some (kvs, rest) => Some ((k, v) :: kvs, rest)
                                | None => None
                                end
                              else if decide (c = RBRACE) then Some ([(k, v)], r4)
                              else None
                          | "" => None
                          end
                      | None => None
                      end
                    else None
                | "" => None
                end
            | None => None
            end
          else None
      | "" => None
      end
  end.

Definition loads (s : string) : option json :=
  match parse_value (S (String.length s)) s with
  | Some (j, rest) => if decide (skip_ws rest = "") then Some j else None
  | None => None
  end.

Definition codec : JsonCodec := {| json_loads := loads; json_dumps := dumps |}.
End RefJson.

(** ** Notions used in the statements *)

(** The version file of a component directory. *)
Definition component_path (directory : string) : string :=
  path_join directory "__init__.py".

(** What [readlines] returns for a file with this content. *)
Definition file_lines (content : string) : list string :=
  Str.splitlines (Str.translate_newlines content).

(** What [extract_version_string] returns for a file with this content. *)
Definition version_token (content : string) : option string :=
  first_version_line (file_lines content).

(** The number of lines that contain the marker of [Academy.cs]. *)
Definition marker_count (lines : list string) : nat :=
  length (List.filter (Str.contains needle) lines).

(** What [set_package_version] does to the value it has parsed. *)
Definition updated_manifest (new_version : string) (package_json : json) : outcome json :=
  match py_in "version" package_json with
  | Ok true => py_setitem "version" (JStr new_version) package_json
  | Ok false => Ok package_json
  | Raise e => Raise e
  end.

Fixpoint has_char (c : ascii) (s : string) : bool :=
  match s with
  | "" => false
  | String d r => bool_decide (d = c) || has_char c r
  end.

(** A text without line feed and carriage return. *)
Definition no_line_break (s : string) : Prop :=
  has_char Char.LF s = false ∧ has_char Char.CR s = false.

(** The token [extract_version_string] finds for a component directory in a
    given file system, and the line [check_versions] prints for it. *)
Definition token_in (fs : gmap string string) (directory : string) : option string :=
  match fs !! component_path directory with
  | Some content => version_token content
  | None => None
  end.

Definition found_line (fs : gmap string string) (directory : string) : string :=
  "Found version " +:+ str_of_optional (token_in fs directory) +:+ " for " +:+ directory.

(** The text a version file is expected to hold: the two assignments, each
    value in double quotes when it is given and the word None when it is
    not. *)
Definition expected_version_file (version tag : option string) : string :=
  let value (s : option string) : string :=
    match s with
    | Some s => String Char.DQ (s +:+ String Char.DQ "")
    | None => "None"
    end in
  Str.nl +:+ "# Version of the library that will be used to upload to pypi" +:+ Str.nl +:+
  "__version__ = " +:+ value version +:+ Str.nl +:+
  Str.nl +:+
  "# Git tag that will be checked to determine whether to trigger upload to pypi" +:+ Str.nl +:+
  "__release_tag__ = " +:+ value tag +:+ Str.nl.

(** The world once the loop of [set_version] over the directories is done. *)
Definition setting_line (version : option string) (directory : string) : string :=
  "Setting " +:+ component_path directory +:+ " to version " +:+ str_of_optional version.

Definition components_written (version tag : option string) (w : World) : World :=
  mkWorld
    (foldl (fun fs d => <[component_path d := expected_version_file version tag]> fs)
       (files w) DIRECTORIES)
    (stdout w ++ (setting_line version <$> DIRECTORIES)).

(** The body of the loop of [set_academy_version_string] on one line. *)
Definition rewritten (new_version l : string) : outcome string :=
  if Str.contains needle l then
    match Str.split " = " l with
    | [left_; right_] => Ok (academy_line left_ new_version)
    | _ => Raise ValueError
    end
  else Ok l.

Fixpoint map_outcome {A B} (f : A -> outcome B) (xs : list A) : outcome (list B) :=
  match xs with
  | [] => Ok []
  | x :: rest =>
      match f x with
      | Ok y =>
          match map_outcome f rest with
          | Ok ys => Ok (y :: ys)
          | Raise e => Raise e
          end
      | Raise e => Raise e
      end
  end.

(** Lines as [readlines] produces them: every line but the last ends with its
    only line feed, and the last is either such a line or a non-empty text
    without line feed. *)
Inductive lines_ok : list string -> Prop :=
  | lines_ok_nil : lines_ok []
  | lines_ok_last (l : string) :
      l ≠ "" -> has_char Char.LF l = false -> lines_ok [l]
  | lines_ok_cons (body : string) (rest : list string) :
      has_char Char.LF body = false -> lines_ok rest ->
      lines_ok ((body +:+ Str.nl) :: rest).

(** A line on which the unpacking of [l.split(" = ")] into two names
    succeeds if the loop gets to it. *)
Definition splits_in_two (l : string) : Prop :=
  Str.contains needle l = true → length (Str.split " = " l) = 2.

(** ** Concrete repositories

    Small worlds on which the statements below are run with the reference
    codec. *)

Module Examples.
(** The directories of the repository. *)
Definition disk : Disk :=
  {| dir_exists := fun d =>
       bool_decide (d ∈ [ "ml-agents/mlagents/trainers";
                          "ml-agents-envs/mlagents_envs";
                          "gym-unity/gym_unity";
                          "com.unity.ml-agents";
                          "com.unity.ml-agents/Runtime" ]) |}.

(** A checkout without any of them. *)
Definition empty_disk : Disk := {| dir_exists := fun _ => false |}.

Definition version_file : string := expected_version_file (Some "0.16.0") None.

Definition manifest : json :=
  JObj [ ("name", JStr "com.unity.ml-agents");
         ("version", JStr "0.15.0-preview");
         ("unity", JStr "2018.4") ].

(** The manifest with the version 1.0.0-preview in place. *)
Definition manifest_updated : json :=
  JObj [ ("name", JStr "com.unity.ml-agents");
         ("version", JStr "1.0.0-preview");
         ("unity", JStr "2018.4") ].

(** The manifest as a four-space indented document. *)
Definition manifest_text : string := RefJson.dumps 4 manifest.

Definition marker_line (value : string) : string :=
  "    internal const string k_PackageVersion = " +:+ value +:+ ";" +:+ Str.nl.

Definition academy_text : string :=
  "public class Academy" +:+ Str.nl +:+
  "{" +:+ Str.nl +:+
  marker_line (Str.quote +:+ "0.15.0-preview" +:+ Str.quote) +:+
  "}" +:+ Str.nl.

Definition repo_with (academy : string) : World :=
  mkWorld
    (list_to_map
       [ (component_path "ml-agents/mlagents/trainers", version_file);
         (component_path "ml-agents-envs/mlagents_envs", version_file);
         (component_path "gym-unity/gym_unity", version_file);
         (UNITY_PACKAGE_JSON_PATH, manifest_text);
         (ACADEMY_PATH, academy) ])
    [].

Definition repo : World := repo_with academy_text.

(** Two lines with the marker, the first of them without separator. *)
Definition academy_unsplit : string :=
  "    // see internal const string k_PackageVersion" +:+ Str.nl +:+
  marker_line "0".
(** One line with the marker, whose value holds the separator again. *)
Definition academy_two_separators : string :=
  marker_line "a = b".

(** Two lines with the marker, each with one separator. *)
Definition academy_two_markers : string :=
  marker_line "0" +:+ marker_line "1".

(** No line with the marker. *)
Definition academy_no_marker : string :=
  "public class Academy" +:+ Str.nl +:+ "{" +:+ Str.nl +:+ "}" +:+ Str.nl.

(** A version file whose token holds the marker text. *)
Definition nested_version_file : string :=
  VERSION_LINE_START +:+ "1.0" +:+ VERSION_LINE_START +:+ "2.0" +:+ Str.nl.

(** A native version with a line feed in it. *)
Definition broken_version : string := "1" +:+ Str.nl +:+ "2".
End Examples.

(** Further worlds: one without the version file of [ml-agents-envs], one
    whose files disagree, and manifests that are no objects. *)

Module MoreExamples.
Import Examples.

Definition repo_missing_envs : World :=
  mkWorld (delete (component_path "ml-agents-envs/mlagents_envs") (files repo)) [].

Definition repo_disagreeing : World :=
  mkWorld
    (<[component_path "gym-unity/gym_unity" := expected_version_file (Some "0.15.0") None]>
       (files repo))
    [].

Definition repo_with_manifest (text : string) : World :=
  mkWorld (<[UNITY_PACKAGE_JSON_PATH := text]> (files repo)) [].

Definition repo_without (path : string) : World :=
  mkWorld (delete path (files repo)) [].
End MoreExamples.

(** The parsed manifests on which [set_package_version] raises [TypeError]:
    a number, a boolean or null (the membership test raises), and a list
    that has the string [version] as an item or a string that contains it
    (the item assignment raises). *)
Definition refuses_version_key (package_json : json) : Prop :=
  match package_json with
  | JObj _ => False
  | JArr items => JStr "version" ∈ items
  | JStr s => Str.contains "version" s = true
  | JNull | JBool _ | JInt _ | JFloat _ => True
  end.

Module LineEndExamples.
(** A version file and an [Academy.cs] with CR LF line ends. *)
Definition crlf : string := String Char.CR Str.nl.


Definition academy_crlf : string :=
  "public class Academy" +:+ crlf +:+
  "{" +:+ crlf +:+
  "    internal const string k_PackageVersion = 0;" +:+ crlf +:+
  "}" +:+ crlf.
End LineEndExamples.

(** * Facts about the string operations *)

Module StrFacts.
Import Char Str.

Lemma app_nil_l (s : string) : "" +:+ s = s.
Proof. reflexivity. Qed.

Lemma app_cons (c : ascii) (a b : string) : String c a +:+ b = String c (a +:+ b).
Proof. reflexivity. Qed.

Lemma app_nil_r (s : string) : s +:+ "" = s.
Proof. induction s as [|c s IH]; [done | by rewrite app_cons, IH]. Qed.

Lemma app_assoc (a b c : string) : (a +:+ b) +:+ c = a +:+ (b +:+ c).
Proof. induction a as [|x a IH]; [done | by rewrite !app_cons, IH]. Qed.

Lemma length_app (a b : string) :
  String.length (a +:+ b) = String.length a + String.length b.
Proof. induction a as [|x a IH]; [done | rewrite app_cons; simpl; by rewrite IH]. Qed.

Lemma length_zero (s : string) : String.length s ≤ 0 → s = "".
Proof. destruct s; simpl; [done | lia]. Qed.

Lemma drop_app_length (p r : string) : drop (String.length p) (p +:+ r) = r.
Proof. induction p as [|x p IH]; [by destruct r | by rewrite app_cons]. Qed.

Lemma startswith_nil (s : string) : startswith "" s = true.
Proof. by destruct s. Qed.

Lemma startswith_cons (c d : ascii) (p s : string) :
  startswith (String c p) (String d s) = bool_decide (c = d) && startswith p s.
Proof.
  unfold startswith; simpl. destruct (ascii_dec c d) as [->|Hne].
  - by rewrite bool_decide_eq_true_2.
  - by rewrite bool_decide_eq_false_2.
Qed.

Lemma startswith_app (p r : string) : startswith p (p +:+ r) = true.
Proof.
  induction p as [|x p IH]; [apply startswith_nil|].
  rewrite app_cons, startswith_cons, IH. by rewrite bool_decide_eq_true_2.
Qed.

Lemma startswith_inv (p s : string) :
  startswith p s = true → s = p +:+ drop (String.length p) s.
Proof.
  revert s. induction p as [|x p IH]; intros s Hp; [by destruct s|].
  destruct s as [|d s]; [done|].
  rewrite startswith_cons in Hp. apply andb_true_iff in Hp as [Hc Hp].
  apply bool_decide_eq_true_1 in Hc as <-. rewrite app_cons. simpl. by rewrite <- IH.
Qed.

(** Whether [p] starts a text is decided by the first [length p]
    characters. *)
Lemma startswith_app_l (p a b : string) :
  String.length p ≤ String.length a →
  startswith p (a +:+ b) = startswith p a.
Proof.
  revert a. induction p as [|x p IH]; intros a Hlen.
  - by rewrite !startswith_nil.
  - destruct a as [|d a]; simpl in Hlen; [lia|].
    rewrite app_cons, !startswith_cons, IH; [done | lia].
Qed.

Lemma cut_nil (sep : string) : sep ≠ "" → cut sep "" = None.
Proof. by destruct sep. Qed.

Lemma cut_unfold (sep s : string) :
  cut sep s =
    if startswith sep s then Some ("", drop (String.length sep) s)
    else match s with
         | "" => None
         | String c r =>
             match cut sep r with
             | Some (a, b) => Some (String c a, b)
             | None => None
             end
         end.
Proof. by destruct s. Qed.

Lemma cut_here (sep r : string) : cut sep (sep +:+ r) = Some ("", r).
Proof. by rewrite cut_unfold, startswith_app, drop_app_length. Qed.

(** A cut splits the text around one occurrence of the separator. *)
Lemma cut_Some (sep s a b : string) :
  cut sep s = Some (a, b) → s = a +:+ sep +:+ b.
Proof.
  revert a b. induction s as [|c s IH]; intros a b; rewrite cut_unfold.
  - destruct (startswith sep "") eqn:E; [|done].
    intros [= <- <-]. by apply startswith_inv in E.
  - destruct (startswith sep (String c s)) eqn:E.
    + intros [= <- <-]. by apply startswith_inv in E.
    + destruct (cut sep s) as [[a' b']|] eqn:E'; [|done].
      intros [= <- <-]. rewrite app_cons. f_equal. by apply IH.
Qed.

(** The occurrence is the first one: the text before it, followed by the
    separator, has no earlier cut, whatever follows. *)
Lemma cut_first (sep s a b b' : string) :
  cut sep s = Some (a, b) → cut sep (a +:+ sep +:+ b') = Some (a, b').
Proof.
  revert a b. induction s as [|c s IH]; intros a b; rewrite cut_unfold.
  - destruct (startswith sep "") eqn:E; [|done].
    intros [= <- <-]. exact (cut_here sep b').
  - destruct (startswith sep (String c s)) eqn:E.
    + intros [= <- <-]. exact (cut_here sep b').
    + destruct (cut sep s) as [[a' b0]|] eqn:E'; [|done].
      intros [= <- <-]. rewrite cut_unfold.
      assert (startswith sep (String c a' +:+ sep +:+ b') = false) as ->.
      { rewrite <- E. apply cut_Some in E'. subst s. rewrite <- !app_cons.
        destruct (decide (String.length sep ≤ String.length (String c a'))) as [Hle|Hgt].
        - by rewrite !startswith_app_l.
        - rewrite <- !app_assoc.
          rewrite !(startswith_app_l sep (String c a' +:+ sep)); [done|..];
            rewrite length_app; lia. }
      rewrite app_cons. by rewrite (IH _ _ eq_refl).
Qed.

Lemma cut_shorter (sep s a b : string) :
  sep ≠ "" → cut sep s = Some (a, b) → String.length b < String.length s.
Proof.
  intros Hsep Hcut. apply cut_Some in Hcut as ->.
  rewrite !length_app. destruct sep; [done | simpl; lia].
Qed.

Lemma contains_app (sub a b : string) : contains sub (a +:+ sub +:+ b) = true.
Proof.
  unfold contains. induction a as [|c a IH].
  - by rewrite app_nil_l, cut_here.
  - rewrite cut_unfold. destruct (startswith _ _); [done|].
    rewrite app_cons. by destruct (cut sub (a +:+ sub +:+ b)) as [[??]|].
Qed.

(** The bound on the number of cuts does not matter once it is at least the
    length of the text. *)
Lemma split_upto_enough (sep : string) (n m : nat) (s : string) :
  sep ≠ "" → String.length s ≤ n → String.length s ≤ m →
  split_upto n sep s = split_upto m sep s.
Proof.
  intros Hsep. revert m s. induction n as [|n IH]; intros m s Hn Hm.
  - apply length_zero in Hn. subst s.
    destruct m; cbn [split_upto]; [done | by rewrite cut_nil].
  - destruct m as [|m]; cbn [split_upto].
    + apply length_zero in Hm. subst s. by rewrite cut_nil.
    + destruct (cut sep s) as [[a b]|] eqn:E; [|done].
      pose proof (cut_shorter _ _ _ _ Hsep E). f_equal. apply IH; lia.
Qed.

Lemma replace_upto_enough (old new : string) (n m : nat) (s : string) :
  old ≠ "" → String.length s ≤ n → String.length s ≤ m →
  replace_upto n old new s = replace_upto m old new s.
Proof.
  intros Hold. revert m s. induction n as [|n IH]; intros m s Hn Hm.
  - apply length_zero in Hn. subst s.
    destruct m; cbn [replace_upto]; [done | by rewrite cut_nil].
  - destruct m as [|m]; cbn [replace_upto].
    + apply length_zero in Hm. subst s. by rewrite cut_nil.
    + destruct (cut old s) as [[a b]|] eqn:E; [|done].
      pose proof (cut_shorter _ _ _ _ Hold E). do 2 f_equal. apply IH; lia.
Qed.

(** [replace] unfolds along the first occurrence. *)
Lemma replace_cut (old new s a b : string) :
  old ≠ "" → cut old s = Some (a, b) →
  replace old new s = a +:+ new +:+ replace old new b.
Proof.
  intros Hold E. unfold replace. pose proof (cut_shorter _ _ _ _ Hold E) as Hlt.
  destruct (String.length s) as [|n] eqn:En; [lia|]. cbn [replace_upto]. rewrite E.
  do 2 f_equal. apply replace_upto_enough; [done | lia | lia].
Qed.

Lemma replace_absent (old new s : string) :
  contains old s = false → replace old new s = s.
Proof.
  unfold contains, replace. intros E.
  destruct (String.length s); cbn [replace_upto]; [done|].
  by destruct (cut old s).
Qed.

Lemma split_cut (sep s a b : string) :
  sep ≠ "" → cut sep s = Some (a, b) → split sep s = a :: split sep b.
Proof.
  intros Hsep E. unfold split. pose proof (cut_shorter _ _ _ _ Hsep E) as Hlt.
  destruct (String.length s) as [|n] eqn:En; [lia|]. cbn [split_upto]. rewrite E.
  f_equal. apply split_upto_enough; [done | lia | lia].
Qed.

Lemma split_absent (sep s : string) : contains sep s = false → split sep s = [s].
Proof.
  unfold contains, split. intros E.
  destruct (String.length s); cbn [split_upto]; [done|].
  by destruct (cut sep s).
Qed.

Lemma split_nonempty (sep s : string) : split sep s ≠ [].
Proof.
  unfold split. destruct (String.length s); cbn [split_upto]; [done|].
  by destruct (cut sep s) as [[??]|].
Qed.

(** A split in exactly two parts: one separator, found by the first cut. *)
Lemma split_two (sep s a b : string) :
  sep ≠ "" →
  split sep s = [a; b] ↔ cut sep s = Some (a, b) ∧ contains sep b = false.
Proof.
  intros Hsep. split.
  - intros Hs. destruct (cut sep s) as [[a' b']|] eqn:E.
    + rewrite (split_cut _ _ _ _ Hsep E) in Hs.
      injection Hs as -> Hb.
      destruct (contains sep b') eqn:Hc.
      * unfold contains in Hc.
        destruct (cut sep b') as [[a2 b2]|] eqn:E2; [|done].
        rewrite (split_cut _ _ _ _ Hsep E2) in Hb.
        injection Hb as _ Hb. by apply split_nonempty in Hb.
      * rewrite (split_absent _ _ Hc) in Hb. by injection Hb as ->.
    + rewrite split_absent in Hs by (unfold contains; by rewrite E). done.
  - intros [E Hb]. rewrite (split_cut _ _ _ _ Hsep E). by rewrite split_absent.
Qed.
End StrFacts.

(** * Running computations *)

Lemma bind_ok {A B} (m : M A) (k : A → M B) (w w' : World) (a : A) :
  m w = (Ok a, w') → bind m k w = k a w'.
Proof. unfold bind. by intros ->. Qed.

Lemma bind_raise {A B} (m : M A) (k : A → M B) (w w' : World) (e : exn) :
  m w = (Raise e, w') → bind m k w = (Raise e, w').
Proof. unfold bind. by intros ->. Qed.

Lemma read_text_ok (path content : string) (w : World) :
  files w !! path = Some content →
  read_text path w = (Ok (Str.translate_newlines content), w).
Proof. unfold read_text. by intros ->. Qed.

Lemma read_text_missing (path : string) (w : World) :
  files w !! path = None →
  read_text path w = (Raise (FileNotFoundError path), w).
Proof. unfold read_text. by intros ->. Qed.

Lemma readlines_ok (path content : string) (w : World) :
  files w !! path = Some content →
  readlines path w = (Ok (file_lines content), w).
Proof.
  intros Hf. unfold readlines.
  by rewrite (bind_ok _ _ _ _ _ (read_text_ok _ _ _ Hf)).
Qed.

Lemma readlines_missing (path : string) (w : World) :
  files w !! path = None →
  readlines path w = (Raise (FileNotFoundError path), w).
Proof.
  intros Hf. unfold readlines.
  by rewrite (bind_raise _ _ _ _ _ (read_text_missing _ _ Hf)).
Qed.

(** * The version extractor *)

Lemma extract_version_string_ok (filename content : string) (w : World) :
  files w !! filename = Some content →
  extract_version_string filename w = (Ok (version_token content), w).
Proof.
  intros Hf. unfold extract_version_string.
  by rewrite (bind_ok _ _ _ _ _ (readlines_ok _ _ _ Hf)).
Qed.

Lemma extract_version_string_missing (filename : string) (w : World) :
  files w !! filename = None →
  extract_version_string filename w = (Raise (FileNotFoundError filename), w).
Proof.
  intros Hf. unfold extract_version_string.
  by rewrite (bind_raise _ _ _ _ _ (readlines_missing _ _ Hf)).
Qed.

(** Reading never changes the world. *)
Lemma extract_version_string_frame (filename : string) (w : World) :
  (extract_version_string filename w).2 = w.
Proof.
  destruct (files w !! filename) as [content|] eqn:Hf.
  - by rewrite (extract_version_string_ok _ _ _ Hf).
  - by rewrite (extract_version_string_missing _ _ Hf).
Qed.

Lemma first_version_line_none (lines : list string) :
  (∀ l, l ∈ lines → Str.startswith VERSION_LINE_START l = false) →
  first_version_line lines = None.
Proof.
  induction lines as [|l lines IH]; intros Hall; [done|].
  cbn [first_version_line]. rewrite Hall by left. apply IH.
  intros x Hx. apply Hall. by right.
Qed.

Lemma first_version_line_at (before after : list string) (l : string) :
  (∀ x, x ∈ before → Str.startswith VERSION_LINE_START x = false) →
  Str.startswith VERSION_LINE_START l = true →
  first_version_line (before ++ l :: after) =
    Some (Str.strip (Str.replace VERSION_LINE_START "" l)).
Proof.
  intros Hbefore Hl. induction before as [|x before IH].
  - cbn [app first_version_line]. by rewrite Hl.
  - cbn [app first_version_line]. rewrite Hbefore by left. apply IH.
    intros y Hy. apply Hbefore. by right.
Qed.

Lemma replace_marker_prefix (rest : string) :
  Str.replace VERSION_LINE_START "" (VERSION_LINE_START +:+ rest) =
  Str.replace VERSION_LINE_START "" rest.
Proof.
  rewrite (StrFacts.replace_cut _ _ _ "" rest); [done | done |].
  apply StrFacts.cut_here.
Qed.

(** C8 (a defect of the code).  The one-line file
    [__version__ = 1.0__version__ = 2.0] can be read and its only line
    starts with the marker; the text after the marker, stripped of
    surrounding white space, is [1.0__version__ = 2.0].  On this file
    [extract_version_string] returns [1.02.0]: the call that removes the
    leading marker has removed the one inside the token as well. *)
Theorem extract_version_string_inner_marker :
  let w := mkWorld {[ "v.py" := Examples.nested_version_file ]} [] in
  let rest := "1.0" +:+ VERSION_LINE_START +:+ "2.0" +:+ Str.nl in
  file_lines Examples.nested_version_file = [VERSION_LINE_START +:+ rest] ∧
  Str.startswith VERSION_LINE_START (VERSION_LINE_START +:+ rest) = true ∧
  Str.strip rest = "1.0__version__ = 2.0" ∧
  extract_version_string "v.py" w = (Ok (Some "1.02.0"), w) ∧
  Some "1.02.0" ≠ Some (Str.strip rest).
Proof.
  repeat split; try (vm_compute; reflexivity).
  intros Heq. vm_compute in Heq. discriminate Heq.
Qed.

(** X17.  For a file that can be read, [extract_version_string] returns
    without changing the world.  The result is [None] when no line starts
    with the marker.  When the first line that starts with the marker holds
    no further occurrence of the marker, the result is the text after the
    marker, stripped of surrounding white space. *)
Theorem extract_version_string_marker_free (filename content : string) (w : World) :
  files w !! filename = Some content →
  ∃ r : option string,
    extract_version_string filename w = (Ok r, w) ∧
    ((∀ l, l ∈ file_lines content → Str.startswith VERSION_LINE_START l = false) →
     r = None) ∧
    (∀ before after rest,
       file_lines content = before ++ (VERSION_LINE_START +:+ rest) :: after →
       (∀ x, x ∈ before → Str.startswith VERSION_LINE_START x = false) →
       Str.contains VERSION_LINE_START rest = false →
       r = Some (Str.strip rest)).
Proof.
  intros Hf. exists (version_token content). split; [|split].
  - by apply extract_version_string_ok.
  - intros Hnone. by apply first_version_line_none.
  - intros before after rest Hlines Hbefore Habs. unfold version_token.
    rewrite Hlines, first_version_line_at; [|done|apply StrFacts.startswith_app].
    rewrite replace_marker_prefix. by rewrite StrFacts.replace_absent.
Qed.


(** * The consistency checker *)

Section Checker.
Implicit Types (w : World) (fs : gmap string string).

Lemma check_loop_run fs (dirs : list string) :
  (∀ d, d ∈ dirs → is_Some (fs !! component_path d)) →
  ∀ (m0 : gmap string (option string)) (out : list string),
    for_fold dirs m0
      (fun version_by_dir directory =>
         let path := path_join directory "__init__.py" in
         version <- extract_version_string path ;;
         print ("Found version " +:+ str_of_optional version +:+ " for " +:+ directory) ;;
         ret (<[directory := version]> version_by_dir))
      (mkWorld fs out) =
    (Ok (foldl (fun m d => <[d := token_in fs d]> m) m0 dirs),
     mkWorld fs (out ++ (found_line fs <$> dirs))).
Proof.
  induction dirs as [|d dirs IH]; intros Hall m0 out.
  - cbn. by rewrite app_nil_r.
  - destruct (Hall d) as [content Hc]; [by left|].
    cbn [for_fold foldl fmap list_fmap].
    assert (token_in fs d = version_token content) as Htok.
    { unfold token_in. by rewrite Hc. }
    erewrite bind_ok; last first.
    { erewrite bind_ok; last by apply (extract_version_string_ok _ content).
      unfold print, bind, ret; cbn. reflexivity. }
    rewrite IH by (intros; apply Hall; by right).
    unfold found_line at 2. rewrite Htok.
    by rewrite <- app_assoc.
Qed.

Lemma img_of_fold (f : string → option string) (dirs : list string) :
  ∀ m0 : gmap string (option string),
    NoDup dirs → (∀ d, d ∈ dirs → m0 !! d = None) →
    (map_img (foldl (fun m d => <[d := f d]> m) m0 dirs) : gset (option string)) =
    list_to_set (f <$> dirs) ∪ map_img m0.
Proof.
  induction dirs as [|d dirs IH]; intros m0 Hnd Hfresh.
  - cbn. set_solver.
  - apply NoDup_cons in Hnd as [Hd Hnd]. cbn [foldl fmap list_fmap list_to_set].
    rewrite IH; [|done|].
    + rewrite map_img_insert_notin_L by (apply Hfresh; by left). set_solver.
    + intros d' Hd'. rewrite lookup_insert_ne; [apply Hfresh; by right|].
      intros ->. done.
Qed.

Lemma one_value_set (tokens : list (option string)) :
  tokens ≠ [] →
  (size (list_to_set tokens : gset (option string)) = 1 ∧
   None ∉ (list_to_set tokens : gset (option string))) ↔
  ∃ T, ∀ t, t ∈ tokens → t = Some T.
Proof.
  intros Hne. split.
  - intros [Hsize Hnone].
    destruct tokens as [|t0 tokens]; [done|].
    destruct t0 as [T|]; [|set_solver].
    exists T. intros t Ht.
    apply (size_singleton_inv _ _ _ Hsize); set_solver.
  - intros [T HT].
    assert ((list_to_set tokens : gset (option string)) = {[ Some T ]}) as ->.
    { destruct tokens as [|t0 tokens]; [done|].
      apply set_eq. intros x. rewrite elem_of_list_to_set, elem_of_singleton.
      split; [apply HT|]. intros ->. rewrite <- (HT t0) by left. by left. }
    split; [apply size_singleton | set_solver].
Qed.

Lemma directories_nodup : NoDup DIRECTORIES.
Proof. apply (bool_decide_unpack (NoDup DIRECTORIES)). by vm_compute. Qed.

(** [check_versions] on a world where the three version files exist. *)
Lemma check_versions_run w :
  (∀ d, d ∈ DIRECTORIES → is_Some (files w !! component_path d)) →
  let versions : gset (option string) := list_to_set (token_in (files w) <$> DIRECTORIES) in
  ∃ w',
    check_versions w =
      (Ok (negb (bool_decide (size versions ≠ 1) || bool_decide (None ∈ versions))), w') ∧
    files w' = files w.
Proof.
  intros Hall versions. destruct w as [fs out]. cbn [files] in *.
  unfold check_versions.
  erewrite bind_ok by (by apply check_loop_run).
  rewrite img_of_fold; [|apply directories_nodup|intros; apply lookup_empty].
  rewrite map_img_empty_L, (right_id_L ∅ (∪)). fold versions.
  destruct (bool_decide (size versions ≠ 1) || bool_decide (None ∈ versions));
    eexists; (split; [reflexivity | done]).
Qed.
End Checker.

(** C1.  When the version file of every configured component can be read,
    [check_versions] returns a boolean without raising and leaves the files
    as they are.  It returns [True] exactly when the set of the extracted
    tokens has one member and that member is not [None], that is, when all
    files carry the same token; it returns [False] whenever two tokens
    differ or one of them is [None]. *)
Theorem check_versions_spec (w : World) :
  (∀ d, d ∈ DIRECTORIES → is_Some (files w !! component_path d)) →
  ∃ (tokens : list (option string)) (ok : bool) (w' : World),
    Forall2 (fun d t => extract_version_string (component_path d) w = (Ok t, w))
      DIRECTORIES tokens ∧
    check_versions w = (Ok ok, w') ∧
    files w' = files w ∧
    (ok = true ↔
       size (list_to_set tokens : gset (option string)) = 1 ∧
       None ∉ (list_to_set tokens : gset (option string))) ∧
    (ok = true ↔ ∃ T, ∀ t, t ∈ tokens → t = Some T) ∧
    ((∃ t t', t ∈ tokens ∧ t' ∈ tokens ∧ t ≠ t') ∨ None ∈ tokens → ok = false).
Proof.
  intros Hall.
  destruct (check_versions_run w Hall) as (w' & Hrun & Hfiles).
  eexists (token_in (files w) <$> DIRECTORIES), _, w'.
  split; [|split; [exact Hrun|split; [exact Hfiles|]]].
  - apply Forall2_fmap_r, Forall_Forall2_diag, Forall_forall.
    intros d Hd. destruct (Hall d Hd) as [content Hc].
    unfold compose, token_in. rewrite Hc. by apply extract_version_string_ok.
  - set (tokens := token_in (files w) <$> DIRECTORIES).
    pose proof (one_value_set tokens ltac:(done)) as Hone.
    assert (negb (bool_decide (size (list_to_set tokens : gset (option string)) ≠ 1)
                  || bool_decide (None ∈ (list_to_set tokens : gset (option string)))) = true
            ↔ size (list_to_set tokens : gset (option string)) = 1 ∧
              None ∉ (list_to_set tokens : gset (option string))) as Hok.
    { rewrite negb_true_iff, orb_false_iff, !bool_decide_eq_false.
      split; intros [H1 H2]; (split; [|done]).
      - by destruct (decide (size (list_to_set tokens : gset (option string)) = 1)).
      - intros H3. by apply H3. }
    split; [exact Hok|]. split; [by rewrite Hok, Hone|].
    intros Hbad. apply not_true_is_false. rewrite Hok, Hone. intros [T HT].
    destruct Hbad as [(t & t' & Ht & Ht' & Hne)|Hnone].
    + apply Hne. by rewrite (HT t Ht), (HT t' Ht').
    + by specialize (HT None Hnone).
Qed.

(** The checker only prints: whatever it finds, the files stay. *)
Lemma for_fold_files {A S} (xs : list A) (body : S → A → M S) :
  (∀ s x w, files (body s x w).2 = files w) →
  ∀ s w, files (for_fold xs s body w).2 = files w.
Proof.
  intros Hbody. induction xs as [|x xs IH]; intros s w; [done|].
  cbn [for_fold]. unfold bind. specialize (Hbody s x w).
  destruct (body s x w) as [[s'|e] w1]; cbn in *; [|done].
  by rewrite IH.
Qed.

Lemma check_versions_frame (w : World) : files (check_versions w).2 = files w.
Proof.
  unfold check_versions. unfold bind at 1.
  match goal with |- context [for_fold ?xs ?s ?body w] =>
    pose proof (for_fold_files xs body) as Hloop;
    destruct (for_fold xs s body w) as [[m|e] w1] eqn:E
  end.
  - assert (files w1 = files w) as <-.
    { change w1 with ((Ok m, w1).2). rewrite <- E. apply Hloop.
      intros s x w0. unfold bind.
      pose proof (extract_version_string_frame (path_join x "__init__.py") w0) as Hx.
      destruct (extract_version_string _ w0) as [[v|e] w2]; cbn in Hx; by subst. }
    by destruct (_ || _).
  - change w1 with ((Raise e : outcome (gmap string (option string)), w1).2).
    rewrite <- E. apply Hloop.
    intros s x w0. unfold bind.
    pose proof (extract_version_string_frame (path_join x "__init__.py") w0) as Hx.
    destruct (extract_version_string _ w0) as [[v|e'] w2]; cbn in Hx; by subst.
Qed.

(** * The version writer: the component files *)

Lemma format_template (version tag : option string) :
  format PYTHON_VERSION_FILE_TEMPLATE
    [ ("version", _escape_non_none version);
      ("release_tag", _escape_non_none tag) ] =
  Ok (expected_version_file version tag).
Proof. destruct version, tag; reflexivity. Qed.

Section Writing.
Context `{Disk}.

Lemma can_write_existing (fs : gmap string string) (p : string) :
  is_Some (fs !! p) → can_write fs p = true.
Proof. intros Hp. unfold can_write. by rewrite (bool_decide_eq_true_2 _ Hp). Qed.

Lemma can_write_insert (fs : gmap string string) (p q c : string) :
  can_write fs p = true → can_write (<[q := c]> fs) p = true.
Proof.
  unfold can_write. rewrite !orb_true_iff, !bool_decide_eq_true.
  intros [[Hp|Hd]|Hd]; [|by left; right|by right].
  left; left. destruct (decide (q = p)) as [->|Hne].
  - rewrite lookup_insert_eq. by eexists.
  - by rewrite lookup_insert_ne.
Qed.

Lemma can_write_insert_inv (fs : gmap string string) (p q c : string) :
  can_write (<[q := c]> fs) p = true → p = q ∨ can_write fs p = true.
Proof.
  unfold can_write. rewrite !orb_true_iff, !bool_decide_eq_true.
  intros [[Hp|Hd]|Hd]; [|by right; left; right|by right; right].
  destruct (decide (q = p)) as [->|Hne]; [by left|].
  rewrite lookup_insert_ne in Hp by done. by right; left; left.
Qed.

Lemma write_text_ok (p c : string) (w : World) :
  can_write (files w) p = true →
  write_text p c w = (Ok tt, mkWorld (<[p := c]> (files w)) (stdout w)).
Proof. unfold write_text. by intros ->. Qed.

Lemma write_text_fail (p c : string) (w : World) :
  can_write (files w) p = false →
  write_text p c w = (Raise (FileNotFoundError p), w).
Proof. unfold write_text. by intros ->. Qed.

Lemma write_loop_run (c : string) (version : option string) (dirs : list string) :
  ∀ (fs : gmap string string) (out : list string),
    (∀ d, d ∈ dirs → can_write fs (component_path d) = true) →
    for_each dirs
      (fun directory =>
         let path := path_join directory "__init__.py" in
         print ("Setting " +:+ path +:+ " to version " +:+ str_of_optional version) ;;
         write_text path c)
      (mkWorld fs out) =
    (Ok tt,
     mkWorld (foldl (fun fs d => <[component_path d := c]> fs) fs dirs)
       (out ++ (setting_line version <$> dirs))).
Proof.
  induction dirs as [|d dirs IH]; intros fs out Hall.
  - cbn. by rewrite app_nil_r.
  - cbn [for_each foldl fmap list_fmap].
    erewrite bind_ok; last first.
    { unfold bind, print. cbn [files stdout].
      apply (write_text_ok _ _ (mkWorld fs _)). apply Hall. by left. }
    cbn [files stdout]. rewrite IH.
    + by rewrite <- app_assoc.
    + intros d' Hd'. apply can_write_insert, Hall. by right.
Qed.

(** A loop that went through could write every file. *)
Lemma write_loop_inv (c : string) (version : option string) (dirs : list string) :
  ∀ (fs : gmap string string) (out : list string) (w' : World),
    for_each dirs
      (fun directory =>
         let path := path_join directory "__init__.py" in
         print ("Setting " +:+ path +:+ " to version " +:+ str_of_optional version) ;;
         write_text path c)
      (mkWorld fs out) = (Ok tt, w') →
    ∀ d, d ∈ dirs → can_write fs (component_path d) = true.
Proof.
  induction dirs as [|d dirs IH]; intros fs out w' Hrun d' Hd'.
  - by apply elem_of_nil in Hd'.
  - cbn [for_each] in Hrun. unfold bind at 1 in Hrun. unfold bind at 1, print at 1 in Hrun.
    cbn [files stdout] in Hrun.
    destruct (can_write fs (component_path d)) eqn:Hd.
    + rewrite (write_text_ok _ _ (mkWorld fs _) Hd) in Hrun. cbn [files stdout] in Hrun.
      apply elem_of_cons in Hd' as [->|Hd']; [done|].
      destruct (can_write_insert_inv fs (component_path d') (component_path d) c)
        as [Heq|Hw]; [by apply (IH _ _ _ Hrun)|by rewrite Heq|done].
    + by rewrite (write_text_fail _ _ (mkWorld fs _) Hd) in Hrun.
Qed.

(** The loop stops at the first file it cannot open. *)
Lemma write_loop_stops (c : string) (version : option string)
    (pre post : list string) (d : string) :
  ∀ (fs : gmap string string) (out : list string),
    (∀ x, x ∈ pre → can_write fs (component_path x) = true) →
    (∀ x, x ∈ pre → component_path x ≠ component_path d) →
    can_write fs (component_path d) = false →
    for_each (pre ++ d :: post)
      (fun directory =>
         let path := path_join directory "__init__.py" in
         print ("Setting " +:+ path +:+ " to version " +:+ str_of_optional version) ;;
         write_text path c)
      (mkWorld fs out) =
    (Raise (FileNotFoundError (component_path d)),
     mkWorld (foldl (fun fs d => <[component_path d := c]> fs) fs pre)
       (out ++ (setting_line version <$> pre) ++ [setting_line version d])).
Proof.
  induction pre as [|x pre IH]; intros fs out Hpre Hne Hd.
  - cbn [app for_each foldl fmap list_fmap]. unfold bind at 1. unfold bind at 1, print at 1.
    cbn [files stdout]. by rewrite (write_text_fail _ _ (mkWorld fs _) Hd).
  - cbn [app for_each foldl fmap list_fmap].
    erewrite bind_ok; last first.
    { unfold bind, print. cbn [files stdout].
      apply (write_text_ok _ _ (mkWorld fs _)). apply Hpre. by left. }
    cbn [files stdout]. rewrite IH.
    + by rewrite <- app_assoc.
    + intros y Hy. apply can_write_insert, Hpre. by right.
    + intros y Hy. apply Hne. by right.
    + destruct (can_write (<[component_path x := c]> fs) (component_path d)) eqn:Hw; [|done].
      apply can_write_insert_inv in Hw as [Heq|Hw]; [|congruence].
      exfalso. apply (Hne x); [by left|done].
Qed.
End Writing.

Lemma foldl_insert_lookup (c : string) (dirs : list string) (fs : gmap string string) (d : string) :
  d ∈ dirs →
  foldl (fun fs d => <[component_path d := c]> fs) fs dirs !! component_path d = Some c.
Proof.
  revert fs. induction dirs as [|d' dirs IH]; intros fs Hd; [by apply elem_of_nil in Hd|].
  cbn [foldl]. destruct (decide (d ∈ dirs)) as [Hin|Hout]; [by apply IH|].
  apply elem_of_cons in Hd as [->|Hd]; [|done].
  clear IH. revert fs. induction dirs as [|d dirs IH]; intros fs.
  - apply lookup_insert_eq.
  - cbn [foldl]. apply not_elem_of_cons in Hout as [Hne Hout].
    destruct (decide (component_path d = component_path d')) as [Heq|Hneq].
    + rewrite Heq, insert_insert_eq. by apply IH.
    + rewrite insert_insert_ne by done. by apply IH.
Qed.

Lemma foldl_insert_other (c : string) (dirs : list string) (fs : gmap string string) (p : string) :
  (∀ d, d ∈ dirs → component_path d ≠ p) →
  foldl (fun fs d => <[component_path d := c]> fs) fs dirs !! p = fs !! p.
Proof.
  revert fs. induction dirs as [|d dirs IH]; intros fs Hp; [done|].
  cbn [foldl]. rewrite IH by (intros; apply Hp; by right).
  apply lookup_insert_ne, Hp. by left.
Qed.

Lemma component_path_not_manifest (d : string) :
  d ∈ DIRECTORIES → component_path d ≠ UNITY_PACKAGE_JSON_PATH.
Proof.
  intros Hd. unfold DIRECTORIES in Hd. rewrite !elem_of_cons in Hd.
  destruct Hd as [->|[->|[->|Hd]]]; [by vm_compute..|by apply elem_of_nil in Hd].
Qed.

Lemma component_path_not_academy (d : string) :
  d ∈ DIRECTORIES → component_path d ≠ ACADEMY_PATH.
Proof.
  intros Hd. unfold DIRECTORIES in Hd. rewrite !elem_of_cons in Hd.
  destruct Hd as [->|[->|[->|Hd]]]; [by vm_compute..|by apply elem_of_nil in Hd].
Qed.

Lemma manifest_not_academy : UNITY_PACKAGE_JSON_PATH ≠ ACADEMY_PATH.
Proof. by vm_compute. Qed.

Lemma components_written_component (version tag : option string) (w : World) (d : string) :
  d ∈ DIRECTORIES →
  files (components_written version tag w) !! component_path d =
    Some (expected_version_file version tag).
Proof. intros Hd. by apply foldl_insert_lookup. Qed.

Lemma components_written_manifest (version tag : option string) (w : World) :
  files (components_written version tag w) !! UNITY_PACKAGE_JSON_PATH =
    files w !! UNITY_PACKAGE_JSON_PATH.
Proof. apply foldl_insert_other, component_path_not_manifest. Qed.

Lemma components_written_academy (version tag : option string) (w : World) :
  files (components_written version tag w) !! ACADEMY_PATH = files w !! ACADEMY_PATH.
Proof. apply foldl_insert_other, component_path_not_academy. Qed.

(** The component files are there when a look at each path finds one. *)
Lemma components_present_check (fs : gmap string string) :
  forallb (fun d => bool_decide (is_Some (fs !! component_path d))) DIRECTORIES = true →
  ∀ d, d ∈ DIRECTORIES → is_Some (fs !! component_path d).
Proof.
  intros Hall d Hd. induction DIRECTORIES as [|x dirs IH]; [by apply elem_of_nil in Hd|].
  cbn [forallb] in Hall. apply andb_prop in Hall as [Hx Hall].
  apply elem_of_cons in Hd as [->|Hd]; [by apply bool_decide_eq_true in Hx|by apply IH].
Qed.

Section WriterFacts.
Context `{JsonCodec} `{Disk}.

(** [set_version] first writes the component files; when it can, what
    follows starts from [components_written]. *)
Lemma set_version_unfold (version csharp tag : option string) (w : World) :
  (∀ d, d ∈ DIRECTORIES → can_write (files w) (component_path d) = true) →
  set_version version csharp tag w =
    match csharp with
    | Some csharp_version =>
        let package_version := csharp_version +:+ "-preview" in
        (print ("Setting package version to " +:+ package_version +:+ " in " +:+
                UNITY_PACKAGE_JSON_PATH) ;;
         set_package_version package_version ;;
         print ("Setting package version to " +:+ package_version +:+ " in " +:+ ACADEMY_PATH) ;;
         set_academy_version_string package_version)
          (components_written version tag w)
    | None => (Ok tt, components_written version tag w)
    end.
Proof.
  intros Hall. unfold set_version.
  erewrite bind_ok; last first.
  { unfold lift. by rewrite format_template. }
  destruct w as [fs out].
  erewrite bind_ok by (by apply write_loop_run).
  by destruct csharp.
Qed.

(** A run of [set_version] that succeeded could write the component
    files. *)
Lemma set_version_ok_writable (version csharp tag : option string) (w w1 : World) :
  set_version version csharp tag w = (Ok tt, w1) →
  ∀ d, d ∈ DIRECTORIES → can_write (files w) (component_path d) = true.
Proof.
  unfold set_version. intros Hrun.
  erewrite bind_ok in Hrun; last first.
  { unfold lift. by rewrite format_template. }
  destruct w as [fs out]. unfold bind at 1 in Hrun.
  match type of Hrun with
  | context [for_each ?xs ?body (mkWorld fs out)] =>
      destruct (for_each xs body (mkWorld fs out)) as [[[]|e] w'] eqn:Hloop; [|done]
  end.
  by apply (write_loop_inv _ _ _ _ _ _ Hloop).
Qed.

Lemma existing_writable (w : World) :
  (∀ d, d ∈ DIRECTORIES → is_Some (files w !! component_path d)) →
  ∀ d, d ∈ DIRECTORIES → can_write (files w) (component_path d) = true.
Proof. intros Hall d Hd. by apply can_write_existing, Hall. Qed.
End WriterFacts.

(** * The manifest and the native source file *)

Section ManifestFacts.
Context `{JsonCodec} `{Disk}.

Lemma set_package_version_ok (new_version mtext : string) (j j' : json) (w : World) :
  files w !! UNITY_PACKAGE_JSON_PATH = Some mtext →
  json_loads (Str.translate_newlines mtext) = Some j →
  updated_manifest new_version j = Ok j' →
  set_package_version new_version w =
    (Ok tt, mkWorld (<[UNITY_PACKAGE_JSON_PATH := json_dumps 2 j']> (files w)) (stdout w)).
Proof.
  intros Hf Hj Hup. unfold set_package_version.
  rewrite (bind_ok _ _ _ _ _ (read_text_ok _ _ _ Hf)).
  unfold bind, lift. rewrite Hj. unfold updated_manifest in Hup.
  assert (∀ c, write_text UNITY_PACKAGE_JSON_PATH c w =
               (Ok tt, mkWorld (<[UNITY_PACKAGE_JSON_PATH := c]> (files w)) (stdout w)))
    as Hwrite.
  { intros c. apply write_text_ok, can_write_existing. by eexists. }
  destruct (py_in "version" j) as [[|]|e]; [rewrite Hup|injection Hup as ->|done];
    apply Hwrite.
Qed.

(** Whatever happens, [set_package_version] either leaves the world as it is
    and raises, or writes the manifest. *)
Lemma set_package_version_cases (new_version : string) (w : World) :
  (∃ e, set_package_version new_version w = (Raise e, w)) ∨
  (∃ mtext j j',
     files w !! UNITY_PACKAGE_JSON_PATH = Some mtext ∧
     json_loads (Str.translate_newlines mtext) = Some j ∧
     updated_manifest new_version j = Ok j' ∧
     set_package_version new_version w =
       (Ok tt, mkWorld (<[UNITY_PACKAGE_JSON_PATH := json_dumps 2 j']> (files w)) (stdout w))).
Proof.
  destruct (files w !! UNITY_PACKAGE_JSON_PATH) as [mtext|] eqn:Hf; last first.
  { left. eexists. unfold set_package_version.
    by rewrite (bind_raise _ _ _ _ _ (read_text_missing _ _ Hf)). }
  destruct (json_loads (Str.translate_newlines mtext)) as [j|] eqn:Hj; last first.
  { left. eexists. unfold set_package_version.
    rewrite (bind_ok _ _ _ _ _ (read_text_ok _ _ _ Hf)).
    unfold bind, lift. by rewrite Hj. }
  destruct (updated_manifest new_version j) as [j'|e] eqn:Hup.
  - right. exists mtext, j, j'. repeat split; try done.
    by apply set_package_version_ok with mtext j.
  - left. exists e. unfold set_package_version.
    rewrite (bind_ok _ _ _ _ _ (read_text_ok _ _ _ Hf)).
    unfold bind, lift. rewrite Hj. unfold updated_manifest in Hup.
    destruct (py_in "version" j) as [[|]|e']; try done; [by rewrite Hup|congruence].
Qed.

Lemma set_package_version_other (new_version : string) (w : World) (p : string) :
  p ≠ UNITY_PACKAGE_JSON_PATH →
  files (set_package_version new_version w).2 !! p = files w !! p.
Proof.
  intros Hp. destruct (set_package_version_cases new_version w)
    as [[e ->]|(mtext & j & j' & _ & _ & _ & ->)]; [done|].
  cbn. by rewrite lookup_insert_ne.
Qed.
End ManifestFacts.

Lemma marker_count_cons (l : string) (lines : list string) :
  marker_count (l :: lines) =
    (if Str.contains needle l then 1 else 0) + marker_count lines.
Proof. unfold marker_count. cbn [List.filter]. by destruct (Str.contains needle l). Qed.

(** The loop over the indices computes the line-by-line rewrite and counts
    the marker lines. *)
Lemma academy_loop_spec (new_version : string) (n : nat) :
  ∀ (i : nat) (lines : list string) (found : nat),
    i + n = length lines →
    academy_loop n i new_version lines found =
      match map_outcome (rewritten new_version) (drop i lines) with
      | Ok rest => Ok (take i lines ++ rest, found + marker_count (drop i lines))
      | Raise e => Raise e
      end.
Proof.
  induction n as [|n IH]; intros i lines found Hlen.
  - rewrite drop_ge, take_ge by lia. cbn. by rewrite app_nil_r, Nat.add_0_r.
  - destruct (lookup_lt_is_Some_2 lines i) as [l Hl]; [lia|].
    rewrite (drop_S _ _ _ Hl). cbn [academy_loop map_outcome]. rewrite Hl.
    rewrite marker_count_cons. unfold rewritten at 1.
    destruct (Str.contains needle l) eqn:Hc.
    + destruct (Str.split " = " l) as [|a [|b [|c rest]]]; try done.
      rewrite IH by (rewrite length_insert; lia).
      rewrite drop_insert_lt by lia.
      rewrite (take_S_r _ _ (academy_line a new_version))
        by (apply list_lookup_insert_eq; lia).
      rewrite take_insert_ge by lia.
      destruct (map_outcome _ _) as [rest|e]; [|done].
      rewrite <- app_assoc. cbn [app]. do 2 f_equal. lia.
    + rewrite IH by lia. rewrite (take_S_r _ _ _ Hl).
      destruct (map_outcome _ _) as [rest|e]; [|done].
      rewrite <- app_assoc. cbn [app]. done.
Qed.

Section AcademyFacts.
Context `{Disk}.

Lemma set_academy_version_string_run (new_version text : string) (w : World) :
  files w !! ACADEMY_PATH = Some text →
  set_academy_version_string new_version w =
    match map_outcome (rewritten new_version) (file_lines text) with
    | Raise e => (Raise e, w)
    | Ok lines =>
        if decide (marker_count (file_lines text) ≠ 1)
        then (Raise (RuntimeError (found_message (marker_count (file_lines text)))), w)
        else (Ok tt, mkWorld (<[ACADEMY_PATH := Str.join_lines lines]> (files w)) (stdout w))
    end.
Proof.
  intros Hf. unfold set_academy_version_string.
  rewrite (bind_ok _ _ _ _ _ (readlines_ok _ _ _ Hf)).
  unfold bind, lift. rewrite academy_loop_spec by done.
  rewrite drop_0, take_0. cbn [app].
  destruct (map_outcome _ _) as [lines|e]; [|done].
  rewrite Nat.add_0_l. destruct (decide _); [done|].
  apply write_text_ok, can_write_existing. by eexists.
Qed.

Lemma set_academy_version_string_missing (new_version : string) (w : World) :
  files w !! ACADEMY_PATH = None →
  set_academy_version_string new_version w = (Raise (FileNotFoundError ACADEMY_PATH), w).
Proof.
  intros Hf. unfold set_academy_version_string.
  by rewrite (bind_raise _ _ _ _ _ (readlines_missing _ _ Hf)).
Qed.

Lemma set_academy_version_string_other (new_version : string) (w : World) (p : string) :
  p ≠ ACADEMY_PATH →
  files (set_academy_version_string new_version w).2 !! p = files w !! p.
Proof.
  intros Hp. destruct (files w !! ACADEMY_PATH) as [text|] eqn:Hf.
  - rewrite (set_academy_version_string_run _ _ _ Hf).
    destruct (map_outcome _ _); [|done]. destruct (decide _); [done|].
    cbn. by rewrite lookup_insert_ne.
  - by rewrite (set_academy_version_string_missing _ _ Hf).
Qed.
End AcademyFacts.

(** * What [set_version] leaves in the component files *)

Section ComponentFiles.
Context `{JsonCodec} `{Disk}.

(** The steps for the native package touch the manifest and [Academy.cs]
    only. *)
Lemma native_steps_other (a b package_version : string) (w : World) (p : string) :
  p ≠ UNITY_PACKAGE_JSON_PATH → p ≠ ACADEMY_PATH →
  files ((print a ;; set_package_version package_version ;; print b ;;
          set_academy_version_string package_version) w).2 !! p = files w !! p.
Proof.
  intros Hm Ha. unfold bind at 1. unfold print at 1. unfold bind at 1.
  pose proof (set_package_version_other package_version
                (mkWorld (files w) (stdout w ++ [a])) p Hm) as H1.
  destruct (set_package_version _ _) as [[[]|e] w1]; cbn [snd files] in *; [|done].
  unfold bind, print.
  by rewrite set_academy_version_string_other.
Qed.

Lemma set_version_component (version csharp tag : option string) (w : World) (d : string) :
  (∀ x, x ∈ DIRECTORIES → can_write (files w) (component_path x) = true) →
  d ∈ DIRECTORIES →
  files (set_version version csharp tag w).2 !! component_path d =
    Some (expected_version_file version tag).
Proof.
  intros Hall Hd. rewrite set_version_unfold by done. destruct csharp as [v|].
  - cbv zeta. rewrite native_steps_other
      by (by apply component_path_not_manifest || by apply component_path_not_academy).
    by apply components_written_component.
  - by apply components_written_component.
Qed.

(** C2.  On a repository that has the three component version files,
    whatever the version, the native version and the release tag are, and
    whether or not a later step raises, [set_version] leaves in every
    configured component version file the same text: the two-line template
    in which the version and the release tag are each in double quotes when
    given and the bare word None when absent. *)
Theorem set_version_writes_components
    (python_version csharp_version release_tag : option string) (w : World) :
  (∀ d, d ∈ DIRECTORIES → is_Some (files w !! component_path d)) →
  Forall
    (fun directory =>
       files (set_version python_version csharp_version release_tag w).2
         !! component_path directory =
       Some (expected_version_file python_version release_tag))
    DIRECTORIES.
Proof.
  intros Hall. apply Forall_forall. intros d Hd.
  apply set_version_component; [by apply existing_writable|done].
Qed.

(** C5.  On a repository that has the three component version files, after
    [set_version] with the version 9.9.9 and no release tag,
    [extract_version_string] returns the token 9.9.9 in double quotes for
    every component version file, and [check_versions] returns [True]. *)
Theorem set_version_then_extract (csharp_version : option string) (w : World) :
  (∀ d, d ∈ DIRECTORIES → is_Some (files w !! component_path d)) →
  let w' := (set_version (Some "9.9.9") csharp_version None w).2 in
  let token := String Char.DQ ("9.9.9" +:+ String Char.DQ "") in
  Forall
    (fun directory =>
       extract_version_string (component_path directory) w' = (Ok (Some token), w'))
    DIRECTORIES ∧
  ∃ w'', check_versions w' = (Ok true, w'') ∧ files w'' = files w'.
Proof.
  intros Hall w' token.
  assert (∀ d, d ∈ DIRECTORIES →
            files w' !! component_path d = Some (expected_version_file (Some "9.9.9") None))
    as Hfiles by (intros; apply set_version_component; [by apply existing_writable|done]).
  assert (version_token (expected_version_file (Some "9.9.9") None) = Some token)
    as Htok by (by vm_compute).
  split.
  - apply Forall_forall. intros d Hd.
    rewrite (extract_version_string_ok _ _ _ (Hfiles d Hd)). by rewrite Htok.
  - destruct (check_versions_run w') as (w'' & Hrun & Hsame).
    { intros d Hd. rewrite (Hfiles d Hd). by eexists. }
    exists w''. split; [|done]. rewrite Hrun. do 2 f_equal.
    cbv zeta.
    assert (token_in (files w') <$> DIRECTORIES = [Some token; Some token; Some token]) as ->.
    { transitivity ((fun _ : string => Some token) <$> DIRECTORIES); [|done].
      apply Forall_fmap_ext_1, Forall_forall. intros d Hd.
      unfold token_in. by rewrite (Hfiles d Hd), Htok. }
    destruct (one_value_set [Some token; Some token; Some token] ltac:(done)) as [_ Hone].
    destruct Hone as [Hsize Hnone].
    { exists token. intros t Ht. rewrite !elem_of_cons in Ht.
      destruct Ht as [->|[->|[->|Ht]]]; [done..|by apply elem_of_nil in Ht]. }
    rewrite bool_decide_eq_false_2 by (intros Hx; exact (Hx Hsize)).
    rewrite (bool_decide_eq_false_2 _ Hnone). reflexivity.
Qed.
End ComponentFiles.

(** * The manifest update *)

Lemma dict_get_set_eq (k : string) (v : json) (d : list (string * json)) :
  dict_get k (dict_set k v d) = Some v.
Proof.
  induction d as [|[k' v'] d IH]; cbn [dict_set dict_get].
  - by rewrite decide_True.
  - destruct (decide (k' = k)) as [->|Hne]; cbn [dict_get].
    + by rewrite decide_True.
    + by rewrite decide_False.
Qed.

Lemma dict_get_set_ne (k k0 : string) (v : json) (d : list (string * json)) :
  k0 ≠ k → dict_get k0 (dict_set k v d) = dict_get k0 d.
Proof.
  intros Hne. induction d as [|[k' v'] d IH]; cbn [dict_set dict_get].
  - by rewrite decide_False.
  - destruct (decide (k' = k)) as [->|Hk]; cbn [dict_get].
    + by rewrite !decide_False.
    + by rewrite IH.
Qed.

Lemma dict_set_keys (k : string) (v : json) (d : list (string * json)) :
  dict_has k d = true → (dict_set k v d).*1 = d.*1.
Proof.
  unfold dict_has. induction d as [|[k' v'] d IH]; cbn [dict_set dict_get]; [done|].
  destruct (decide (k' = k)) as [->|Hk]; [done|].
  intros Hhas. cbn [fmap list_fmap]. f_equal. by apply IH.
Qed.

Lemma dict_set_idem (k : string) (v : json) (d : list (string * json)) :
  dict_set k v (dict_set k v d) = dict_set k v d.
Proof.
  induction d as [|[k' v'] d IH]; cbn [dict_set].
  - by rewrite decide_True.
  - destruct (decide (k' = k)) as [->|Hk]; cbn [dict_set].
    + by rewrite decide_True.
    + by rewrite decide_False, IH.
Qed.

Section Manifest.
Context `{JsonCodec} `{Disk}.

Lemma native_steps_run (a b package_version : string) (w w2 : World) :
  set_package_version package_version (mkWorld (files w) (stdout w ++ [a])) = (Ok tt, w2) →
  (print a ;; set_package_version package_version ;; print b ;;
   set_academy_version_string package_version) w =
  set_academy_version_string package_version (mkWorld (files w2) (stdout w2 ++ [b])).
Proof.
  intros Hspv. unfold bind at 1. unfold print at 1. unfold bind at 1.
  rewrite Hspv. unfold bind, print. done.
Qed.

(** C7.  On a repository that has the three component version files, when
    a native version [v] is given and the manifest parses to an object, the
    manifest step succeeds and the file then holds the object serialised
    with an indentation of two: its [version] field is [v ++ "-preview"] if
    the object had such a field and stays absent if it had none, every
    other field keeps the value that was parsed, and the keys keep their
    order.  The later step on [Academy.cs] does not change the manifest. *)
Theorem manifest_update
    (python_version release_tag : option string) (v mtext : string)
    (fields : list (string * json)) (w : World) :
  (∀ d, d ∈ DIRECTORIES → is_Some (files w !! component_path d)) →
  files w !! UNITY_PACKAGE_JSON_PATH = Some mtext →
  json_loads (Str.translate_newlines mtext) = Some (JObj fields) →
  ∃ fields' : list (string * json),
    set_package_version (v +:+ "-preview") w =
      (Ok tt, mkWorld (<[UNITY_PACKAGE_JSON_PATH := json_dumps 2 (JObj fields')]> (files w))
                (stdout w)) ∧
    files (set_version python_version (Some v) release_tag w).2 !! UNITY_PACKAGE_JSON_PATH =
      Some (json_dumps 2 (JObj fields')) ∧
    dict_get "version" fields' =
      (if dict_has "version" fields then Some (JStr (v +:+ "-preview")) else None) ∧
    (∀ k, k ≠ "version" → dict_get k fields' = dict_get k fields) ∧
    fields'.*1 = fields.*1 ∧
    (dict_has "version" fields = false → fields' = fields).
Proof.
  intros Hall Hf Hj.
  set (fields' := if dict_has "version" fields
                  then dict_set "version" (JStr (v +:+ "-preview")) fields else fields).
  assert (updated_manifest (v +:+ "-preview") (JObj fields) = Ok (JObj fields')) as Hup.
  { unfold updated_manifest, fields'. cbn [py_in py_setitem].
    by destruct (dict_has "version" fields). }
  exists fields'. split; [by apply set_package_version_ok with mtext (JObj fields)|].
  split; [|split; [|split; [|split]]].
  - rewrite set_version_unfold by (by apply existing_writable). cbv zeta.
    erewrite native_steps_run; last first.
    { eapply set_package_version_ok; [|exact Hj|exact Hup].
      cbn [files]. by rewrite components_written_manifest. }
    rewrite set_academy_version_string_other by apply manifest_not_academy.
    cbn [files]. apply lookup_insert_eq.
  - unfold fields'. destruct (dict_has "version" fields) eqn:Hhas.
    + apply dict_get_set_eq.
    + unfold dict_has in Hhas. by destruct (dict_get "version" fields).
  - intros k Hk. unfold fields'. destruct (dict_has "version" fields); [|done].
    by apply dict_get_set_ne.
  - unfold fields'. destruct (dict_has "version" fields) eqn:Hhas; [|done].
    by apply dict_set_keys.
  - intros Hhas. unfold fields'. by rewrite Hhas.
Qed.
End Manifest.

(** * The native source step *)

Lemma cut_is_first (sep s a b a' b' : string) :
  Str.cut sep s = Some (a, b) → s = a' +:+ sep +:+ b' →
  String.length a ≤ String.length a'.
Proof.
  revert s a. induction a' as [|c a' IH]; intros s a Hcut ->.
  - rewrite StrFacts.app_nil_l, StrFacts.cut_here in Hcut. by injection Hcut as <- _.
  - rewrite StrFacts.app_cons, StrFacts.cut_unfold in Hcut.
    destruct (Str.startswith sep _); [injection Hcut as <- _; cbn; lia|].
    destruct (Str.cut sep (a' +:+ sep +:+ b')) as [[a0 b0]|] eqn:E; [|done].
    injection Hcut as <- ->. cbn. specialize (IH _ _ E eq_refl). lia.
Qed.

Lemma rewritten_raise (new_version l : string) (e : exn) :
  rewritten new_version l = Raise e → e = ValueError ∧ ¬ splits_in_two l.
Proof.
  unfold rewritten, splits_in_two. destruct (Str.contains needle l); [|done].
  destruct (Str.split " = " l) as [|a [|b [|c rest]]]; try done;
    intros [= <-]; (split; [done|]); intros Hlen; by specialize (Hlen eq_refl).
Qed.

Lemma rewritten_ok (new_version l l' : string) :
  rewritten new_version l = Ok l' → splits_in_two l.
Proof.
  unfold rewritten, splits_in_two. destruct (Str.contains needle l); [|done].
  by destruct (Str.split " = " l) as [|a [|b [|c rest]]].
Qed.

(** Whether the rewrite of the lines raises does not depend on the version:
    it raises [ValueError] as soon as one marker line does not split in
    two. *)
Lemma map_rewritten_cases (lines : list string) :
  (Forall splits_in_two lines ∧
   ∀ new_version, ∃ lines', map_outcome (rewritten new_version) lines = Ok lines') ∨
  (¬ Forall splits_in_two lines ∧
   ∀ new_version, map_outcome (rewritten new_version) lines = Raise ValueError).
Proof.
  induction lines as [|l lines IH].
  - left. split; [constructor|]. intros. by eexists.
  - destruct (rewritten "" l) as [l0|e0] eqn:El.
    + pose proof (rewritten_ok _ _ _ El) as Hl.
      destruct IH as [[Hall Hok]|[Hnot Hraise]].
      * left. split; [by constructor|]. intros nv. cbn [map_outcome].
        destruct (rewritten nv l) as [l1|e1] eqn:E1.
        -- destruct (Hok nv) as [ls ->]. by eexists.
        -- by destruct (rewritten_raise _ _ _ E1) as [_ []].
      * right. split; [by intros [_ ?]%Forall_cons|]. intros nv. cbn [map_outcome].
        destruct (rewritten nv l) as [l1|e1] eqn:E1.
        -- by rewrite Hraise.
        -- by destruct (rewritten_raise _ _ _ E1) as [-> _].
    + destruct (rewritten_raise _ _ _ El) as [_ Hl].
      right. split; [by intros [? _]%Forall_cons|]. intros nv. cbn [map_outcome].
      destruct (rewritten nv l) as [l1|e1] eqn:E1.
      * by apply rewritten_ok in E1.
      * by destruct (rewritten_raise _ _ _ E1) as [-> _].
Qed.


Lemma map_rewritten_none (new_version : string) (lines : list string) :
  (∀ j l, lines !! j = Some l → Str.contains needle l = false) →
  map_outcome (rewritten new_version) lines = Ok lines ∧ marker_count lines = 0.
Proof.
  induction lines as [|x lines IH]; intros Hnone; [done|].
  pose proof (Hnone 0 x eq_refl) as Hx.
  destruct IH as [IH1 IH2]; [intros j l Hl; by apply (Hnone (S j))|].
  cbn [map_outcome]. unfold rewritten at 1. rewrite Hx, IH1.
  by rewrite marker_count_cons, Hx, IH2.
Qed.

Lemma map_rewritten_single (new_version : string) (lines : list string) :
  ∀ (i : nat) (l a b : string),
    lines !! i = Some l →
    Str.contains needle l = true →
    Str.split " = " l = [a; b] →
    (∀ j l', j ≠ i → lines !! j = Some l' → Str.contains needle l' = false) →
    map_outcome (rewritten new_version) lines =
      Ok (<[i := academy_line a new_version]> lines) ∧
    marker_count lines = 1.
Proof.
  induction lines as [|x lines IH]; intros i l a b Hl Hc Hs Hothers; [done|].
  destruct i as [|i].
  - injection Hl as ->.
    destruct (map_rewritten_none new_version lines) as [H1 H2].
    { intros j l' Hl'. by apply (Hothers (S j)). }
    cbn [map_outcome]. unfold rewritten at 1. rewrite Hc, Hs, H1.
    by rewrite marker_count_cons, Hc, H2.
  - pose proof (Hothers 0 x ltac:(lia) eq_refl) as Hx.
    destruct (IH i l a b Hl Hc Hs) as [H1 H2].
    { intros j l' Hj Hl'. apply (Hothers (S j)); [lia|done]. }
    cbn [map_outcome]. unfold rewritten at 1. rewrite Hx, H1.
    by rewrite marker_count_cons, Hx, H2.
Qed.


Section NativeSource.
Context `{JsonCodec} `{Disk}.


(** C4 (as amended).  When the marker occurs in one line of [Academy.cs] and
    that line holds the separator exactly once, the native-source step
    keeps the text before the separator and puts after it the separator,
    the version in double quotes, a semicolon and a line feed; the file it
    writes is the lines it has read with that line replaced.  Inside
    [set_version], on a repository that has the three component version
    files and a manifest that can be updated, the version put there is the
    native version followed by [-preview]. *)
Theorem academy_line_rewrite
    (python_version release_tag : option string) (v atext : string) (w : World)
    (i : nat) (l left_ right_ : string) :
  files w !! ACADEMY_PATH = Some atext →
  file_lines atext !! i = Some l →
  Str.contains needle l = true →
  (∀ k l', k ≠ i → file_lines atext !! k = Some l' → Str.contains needle l' = false) →
  Str.split " = " l = [left_; right_] →
  let new_line (version : string) : string :=
    left_ +:+ " = " +:+ String Char.DQ (version +:+ String Char.DQ (";" +:+ Str.nl)) in
  l = left_ +:+ " = " +:+ right_ ∧
  (∀ a b, l = a +:+ " = " +:+ b → String.length left_ ≤ String.length a) ∧
  (∀ new_version,
     set_academy_version_string new_version w =
       (Ok tt,
        mkWorld (<[ACADEMY_PATH :=
                    Str.join_lines (<[i := new_line new_version]> (file_lines atext))]> (files w))
          (stdout w))) ∧
  (∀ mtext j j',
     (∀ d, d ∈ DIRECTORIES → is_Some (files w !! component_path d)) →
     files w !! UNITY_PACKAGE_JSON_PATH = Some mtext →
     json_loads (Str.translate_newlines mtext) = Some j →
     updated_manifest (v +:+ "-preview") j = Ok j' →
     ∃ w',
       set_version python_version (Some v) release_tag w = (Ok tt, w') ∧
       files w' !! ACADEMY_PATH =
         Some (Str.join_lines (<[i := new_line (v +:+ "-preview")]> (file_lines atext)))).
Proof.
  intros Ha Hl Hc Hothers Hs new_line.
  pose proof Hs as Hs'. apply StrFacts.split_two in Hs' as [Hcut Hrest]; [|done].
  assert (∀ nv, academy_line left_ nv = new_line nv) as Hline.
  { intros nv. unfold academy_line, new_line, Str.quote, Str.nl.
    by rewrite !StrFacts.app_cons, !StrFacts.app_nil_l. }
  assert (∀ nv w0, files w0 !! ACADEMY_PATH = Some atext →
            set_academy_version_string nv w0 =
              (Ok tt,
               mkWorld (<[ACADEMY_PATH :=
                           Str.join_lines (<[i := new_line nv]> (file_lines atext))]> (files w0))
                 (stdout w0))) as Hstep.
  { intros nv w0 Hf. rewrite (set_academy_version_string_run _ _ _ Hf).
    destruct (map_rewritten_single nv _ _ _ _ _ Hl Hc Hs Hothers) as [-> ->].
    rewrite decide_False by (intros ?; done). by rewrite Hline. }
  split; [by apply StrFacts.cut_Some|].
  split; [intros a b; by apply (cut_is_first " = " l left_ right_ a b)|].
  split; [intros; by apply Hstep|].
  intros mtext j j' Hall Hm Hj Hup. eexists. split.
  - rewrite set_version_unfold by (by apply existing_writable). cbv zeta.
    erewrite native_steps_run; last first.
    { eapply set_package_version_ok; [|exact Hj|exact Hup].
      cbn [files]. by rewrite components_written_manifest. }
    apply Hstep. cbn [files].
    rewrite lookup_insert_ne by apply manifest_not_academy.
    by rewrite components_written_academy.
  - cbn [files]. apply lookup_insert_eq.
Qed.
End NativeSource.

(** * Lines read back from what was written *)

Module LineFacts.
Import Char Str.

Lemma has_char_app (c : ascii) (a b : string) :
  has_char c (a +:+ b) = has_char c a || has_char c b.
Proof.
  induction a as [|x a IH]; [done|].
  rewrite StrFacts.app_cons. cbn [has_char]. by rewrite IH, orb_assoc.
Qed.

Lemma translate_no_cr (s : string) : has_char CR (translate_newlines s) = false.
Proof.
  remember (String.length s) as n eqn:Hn.
  revert s Hn. induction (lt_wf n) as [n _ IH]; intros s ->.
  destruct s as [|c r]; [done|]. cbn [translate_newlines].
  destruct (decide (c = CR)) as [->|Hc].
  - destruct r as [|c' r']; [done|].
    destruct (decide (c' = LF)) as [->|Hc'].
    + cbn [has_char]. rewrite (IH (String.length r')); [done|cbn; lia|done].
    + cbn [has_char]. rewrite (IH (String.length (String c' r'))); [done|cbn; lia|done].
  - cbn [has_char]. rewrite bool_decide_eq_false_2 by done.
    rewrite (IH (String.length r)); [done|cbn; lia|done].
Qed.

Lemma translate_id (s : string) : has_char CR s = false → translate_newlines s = s.
Proof.
  induction s as [|c r IH]; [done|]. cbn [has_char translate_newlines].
  intros [Hc Hr]%orb_false_iff. apply bool_decide_eq_false_1 in Hc.
  rewrite decide_False by done. by rewrite IH.
Qed.

Lemma join_lines_cons (x : string) (xs : list string) :
  join_lines (x :: xs) = x +:+ join_lines xs.
Proof.
  unfold join_lines. destruct xs as [|y ys]; cbn [String.concat].
  - by rewrite StrFacts.app_nil_r.
  - done.
Qed.

Lemma join_splitlines (s : string) : join_lines (splitlines s) = s.
Proof.
  induction s as [|c r IH]; [done|]. cbn [splitlines].
  destruct (decide (c = LF)) as [->|Hc].
  - by rewrite join_lines_cons, IH.
  - destruct (splitlines r) as [|l ls].
    + cbn in IH. by subst r.
    + rewrite join_lines_cons in *. rewrite StrFacts.app_cons. by rewrite IH.
Qed.

Lemma splitlines_ok (s : string) : lines_ok (splitlines s).
Proof.
  induction s as [|c r IH]; [constructor|]. cbn [splitlines].
  destruct (decide (c = LF)) as [->|Hc].
  - by apply (lines_ok_cons "").
  - destruct (splitlines r) as [|l ls].
    + apply lines_ok_last; [done|]. cbn. by rewrite bool_decide_eq_false_2.
    + inversion IH as [|l' Hne Hlf|body rest Hlf Hrest]; subst.
      * apply lines_ok_last; [done|]. cbn. by rewrite bool_decide_eq_false_2.
      * rewrite <- StrFacts.app_cons. apply lines_ok_cons; [|done].
        cbn. by rewrite bool_decide_eq_false_2.
Qed.

Lemma splitlines_whole (l : string) :
  l ≠ "" → has_char LF l = false → splitlines l = [l].
Proof.
  induction l as [|c r IH]; [done|]. intros _. cbn [has_char splitlines].
  intros [Hc Hr]%orb_false_iff. apply bool_decide_eq_false_1 in Hc.
  rewrite decide_False by done.
  destruct r as [|c' r']; [done|]. by rewrite IH.
Qed.

Lemma splitlines_line (body rest : string) :
  has_char LF body = false →
  splitlines (body +:+ nl +:+ rest) = (body +:+ nl) :: splitlines rest.
Proof.
  induction body as [|c r IH].
  - intros _. rewrite !StrFacts.app_nil_l. unfold nl.
    rewrite StrFacts.app_cons, StrFacts.app_nil_l. cbn [splitlines].
    by rewrite decide_True.
  - cbn [has_char]. intros [Hc Hr]%orb_false_iff. apply bool_decide_eq_false_1 in Hc.
    rewrite !StrFacts.app_cons. cbn [splitlines]. rewrite decide_False by done.
    by rewrite IH.
Qed.

Lemma splitlines_join (ls : list string) :
  lines_ok ls → splitlines (join_lines ls) = ls.
Proof.
  induction 1 as [|l Hne Hlf|body rest Hlf Hrest IH].
  - done.
  - rewrite join_lines_cons. cbn. rewrite StrFacts.app_nil_r.
    by apply splitlines_whole.
  - rewrite join_lines_cons, StrFacts.app_assoc, splitlines_line by done.
    by rewrite IH.
Qed.

(** In a line that ends with its only line feed, a part that is followed by
    more text holds no line feed. *)
Lemma prefix_no_lf (body a s : string) :
  has_char LF body = false → s ≠ "" → body +:+ nl = a +:+ s →
  has_char LF a = false.
Proof.
  revert body. induction a as [|c a IH]; intros body Hlf Hs Heq; [done|].
  destruct body as [|d body].
  - rewrite StrFacts.app_nil_l, StrFacts.app_cons in Heq. unfold nl in Heq.
    injection Heq as _ Heq. destruct a; [|done].
    rewrite StrFacts.app_nil_l in Heq. by subst s.
  - rewrite !StrFacts.app_cons in Heq. injection Heq as -> Heq.
    cbn [has_char] in *. apply orb_false_iff in Hlf as [Hd Hlf].
    rewrite Hd. by apply (IH body).
Qed.

Lemma has_char_join (c : ascii) (ls : list string) :
  has_char c (join_lines ls) = false ↔ Forall (fun l => has_char c l = false) ls.
Proof.
  induction ls as [|l ls IH].
  - split; [constructor|done].
  - rewrite join_lines_cons, has_char_app, orb_false_iff, Forall_cons. by rewrite IH.
Qed.

Lemma rewritten_shape (new_version l y : string) :
  rewritten new_version l = Ok y →
  y = l ∨
  ∃ a b, Str.cut " = " l = Some (a, b) ∧ y = academy_line a new_version.
Proof.
  unfold rewritten. destruct (contains needle l); [|intros [= <-]; by left].
  destruct (split " = " l) as [|a [|b [|c rest]]] eqn:Hs; try done.
  intros [= <-]. right. exists a, b.
  apply StrFacts.split_two in Hs as [Hcut _]; done.
Qed.

Lemma academy_line_body (a new_version : string) :
  academy_line a new_version =
    (a +:+ " = " +:+ quote +:+ new_version +:+ quote +:+ ";") +:+ nl.
Proof. unfold academy_line. by rewrite !StrFacts.app_assoc. Qed.

Lemma academy_line_no_char (c : ascii) (a new_version : string) :
  has_char c a = false → has_char c new_version = false →
  c ≠ " "%char → c ≠ "="%char → c ≠ DQ → c ≠ ";"%char →
  has_char c (a +:+ " = " +:+ quote +:+ new_version +:+ quote +:+ ";") = false.
Proof.
  intros Ha Hv H1 H2 H3 H4. rewrite !has_char_app, Ha, Hv. cbn.
  by rewrite !bool_decide_eq_false_2.
Qed.

(** The rewrite keeps the lines in the shape [readlines] gives them. *)
Lemma rewritten_lines_ok (new_version : string) (ls : list string) :
  has_char LF new_version = false →
  lines_ok ls →
  ∀ ls', map_outcome (rewritten new_version) ls = Ok ls' → lines_ok ls'.
Proof.
  intros Hv. induction 1 as [|l Hne Hlf|body rest Hlf Hrest IH]; intros ls' Hmap.
  - injection Hmap as <-. constructor.
  - cbn [map_outcome] in Hmap.
    destruct (rewritten new_version l) as [y|] eqn:Hy; [|done]. injection Hmap as <-.
    apply rewritten_shape in Hy as [->|(a & b & Hcut & ->)]; [by apply lines_ok_last|].
    rewrite academy_line_body. apply lines_ok_cons; [|constructor].
    apply academy_line_no_char; try done.
    apply StrFacts.cut_Some in Hcut. subst l.
    rewrite has_char_app in Hlf. by apply orb_false_iff in Hlf as [? _].
  - cbn [map_outcome] in Hmap.
    destruct (rewritten new_version (body +:+ nl)) as [y|] eqn:Hy; [|done].
    destruct (map_outcome _ rest) as [ys|] eqn:Hys; [|done]. injection Hmap as <-.
    specialize (IH _ eq_refl).
    apply rewritten_shape in Hy as [->|(a & b & Hcut & ->)]; [by apply lines_ok_cons|].
    rewrite academy_line_body. apply lines_ok_cons; [|done].
    apply academy_line_no_char; try done.
    apply StrFacts.cut_Some in Hcut. by apply (prefix_no_lf body a (" = " +:+ b)).
Qed.

Lemma rewritten_no_cr (new_version : string) (ls : list string) :
  has_char CR new_version = false →
  Forall (fun l => has_char CR l = false) ls →
  ∀ ls', map_outcome (rewritten new_version) ls = Ok ls' →
         Forall (fun l => has_char CR l = false) ls'.
Proof.
  intros Hv. induction 1 as [|l ls Hl Hls IH]; intros ls' Hmap.
  - injection Hmap as <-. constructor.
  - cbn [map_outcome] in Hmap.
    destruct (rewritten new_version l) as [y|] eqn:Hy; [|done].
    destruct (map_outcome _ ls) as [ys|] eqn:Hys; [|done]. injection Hmap as <-.
    constructor; [|by apply IH].
    apply rewritten_shape in Hy as [->|(a & b & Hcut & ->)]; [done|].
    rewrite academy_line_body, has_char_app. apply orb_false_iff. split; [|done].
    apply academy_line_no_char; try done.
    apply StrFacts.cut_Some in Hcut. subst l.
    rewrite has_char_app in Hl. by apply orb_false_iff in Hl as [? _].
Qed.

(** Rewriting a rewritten line changes nothing. *)
Lemma rewritten_twice (new_version l l1 l2 : string) :
  rewritten new_version l = Ok l1 → rewritten new_version l1 = Ok l2 → l2 = l1.
Proof.
  intros H1 H2. destruct (rewritten_shape _ _ _ H1) as [->|(a & b & Hcut & ->)].
  - rewrite H1 in H2. by injection H2.
  - apply rewritten_shape in H2 as [->|(a2 & b2 & Hcut2 & ->)]; [done|].
    unfold academy_line in Hcut2 at 1.
    rewrite (StrFacts.cut_first _ _ _ _ _ Hcut) in Hcut2. by injection Hcut2 as <- _.
Qed.
End LineFacts.

(** * Running the writer twice *)

Lemma updated_manifest_idem (new_version : string) (j j' : json) :
  updated_manifest new_version j = Ok j' → updated_manifest new_version j' = Ok j'.
Proof.
  unfold updated_manifest. destruct j as [| | | |s|items|d]; cbn [py_in]; try done.
  - destruct (Str.contains "version" s) eqn:Hc; [done|].
    intros [= <-]. cbn [py_in]. by rewrite Hc.
  - destruct (existsb _ items) eqn:Hc; [done|].
    intros [= <-]. cbn [py_in]. by rewrite Hc.
  - destruct (dict_has "version" d) eqn:Hc; cbn [py_setitem].
    + intros [= <-]. cbn [py_in py_setitem]. unfold dict_has.
      by rewrite dict_get_set_eq, dict_set_idem.
    + intros [= <-]. cbn [py_in]. by rewrite Hc.
Qed.

Lemma map_rewritten_twice (new_version : string) (ls : list string) :
  ∀ ls1 ls2,
    map_outcome (rewritten new_version) ls = Ok ls1 →
    map_outcome (rewritten new_version) ls1 = Ok ls2 →
    ls2 = ls1.
Proof.
  induction ls as [|l ls IH]; intros ls1 ls2 H1 H2.
  - injection H1 as <-. by injection H2 as <-.
  - cbn [map_outcome] in H1.
    destruct (rewritten new_version l) as [y|] eqn:Hy; [|done].
    destruct (map_outcome _ ls) as [ys|] eqn:Hys; [|done]. injection H1 as <-.
    cbn [map_outcome] in H2.
    destruct (rewritten new_version y) as [z|] eqn:Hz; [|done].
    destruct (map_outcome _ ys) as [zs|] eqn:Hzs; [|done]. injection H2 as <-.
    f_equal; [by apply (LineFacts.rewritten_twice new_version l)|by apply IH].
Qed.

(** Reading back the lines written by the native-source step gives those
    lines, when the version holds no line break. *)
Lemma file_lines_rewritten (new_version text : string) (ls : list string) :
  no_line_break new_version →
  map_outcome (rewritten new_version) (file_lines text) = Ok ls →
  file_lines (Str.join_lines ls) = ls.
Proof.
  intros [Hlf Hcr] Hmap. unfold file_lines at 1.
  rewrite LineFacts.translate_id.
  - apply LineFacts.splitlines_join.
    apply (LineFacts.rewritten_lines_ok new_version (file_lines text)); try done.
    apply LineFacts.splitlines_ok.
  - apply LineFacts.has_char_join.
    apply (LineFacts.rewritten_no_cr new_version (file_lines text)); try done.
    apply LineFacts.has_char_join. unfold file_lines.
    rewrite LineFacts.join_splitlines. apply LineFacts.translate_no_cr.
Qed.

Lemma no_line_break_preview (v : string) :
  no_line_break v → no_line_break (v +:+ "-preview").
Proof.
  intros [Hlf Hcr]. unfold no_line_break.
  by rewrite !LineFacts.has_char_app, Hlf, Hcr.
Qed.

Lemma components_again (c : string) (fs : gmap string string) :
  (∀ d, d ∈ DIRECTORIES → fs !! component_path d = Some c) →
  foldl (fun fs d => <[component_path d := c]> fs) fs DIRECTORIES = fs.
Proof.
  intros Hall. apply map_eq. intros p.
  destruct (decide (p ∈ component_path <$> DIRECTORIES)) as [Hin|Hout].
  - apply list_elem_of_fmap in Hin as (d & -> & Hd).
    by rewrite foldl_insert_lookup, Hall.
  - apply foldl_insert_other. intros d Hd <-. apply Hout.
    apply list_elem_of_fmap. by exists d.
Qed.

Section Idempotence.
Context `{JsonCodec} `{Disk}.

(** C6 (as amended).  Let a first invocation of [set_version] succeed.  If
    the native version, when given, holds no line feed and no carriage
    return, and the JSON library parses the manifest it has just written
    back to the value it wrote, then a second invocation with the same
    arguments leaves every file as the first one left it. *)
Theorem set_version_idempotent
    (python_version csharp_version release_tag : option string) (w w1 : World) :
  set_version python_version csharp_version release_tag w = (Ok tt, w1) →
  (∀ v, csharp_version = Some v → no_line_break v) →
  (∀ v mtext j j',
     csharp_version = Some v →
     files w !! UNITY_PACKAGE_JSON_PATH = Some mtext →
     json_loads (Str.translate_newlines mtext) = Some j →
     updated_manifest (v +:+ "-preview") j = Ok j' →
     json_loads (Str.translate_newlines (json_dumps 2 j')) = Some j') →
  files (set_version python_version csharp_version release_tag w1).2 = files w1.
Proof.
  intros Hrun Hbreak Hjson.
  pose proof (set_version_ok_writable _ _ _ _ _ Hrun) as Hwritable.
  rewrite set_version_unfold in Hrun by done.
  destruct csharp_version as [v|]; last first.
  { injection Hrun as <-.
    assert (∀ d, d ∈ DIRECTORIES →
              files (components_written python_version release_tag w) !! component_path d =
              Some (expected_version_file python_version release_tag)) as Hcomp
      by (intros d Hd; by apply components_written_component).
    rewrite set_version_unfold
      by (intros d Hd; apply can_write_existing; eexists; exact (Hcomp d Hd)).
    cbn [snd]. unfold components_written at 1. cbn [files].
    by apply components_again. }
  cbv zeta in Hrun.
  set (pkg := v +:+ "-preview") in *.
  set (wc := components_written python_version release_tag w) in *.
  match type of Hrun with
  | (print ?a ;; _ ;; print ?b ;; _) _ = _ => set (msg_a := a) in *; set (msg_b := b) in *
  end.
  destruct (set_package_version_cases pkg (mkWorld (files wc) (stdout wc ++ [msg_a])))
    as [[e He]|(mtext & j & j' & Hm & Hj & Hup & Hspv)].
  { unfold bind at 1 in Hrun. unfold print at 1 in Hrun. unfold bind at 1 in Hrun.
    by rewrite He in Hrun. }
  rewrite (native_steps_run _ _ _ _ _ Hspv) in Hrun. cbn [files stdout] in Hrun, Hm.
  unfold wc in Hm. rewrite components_written_manifest in Hm.
  match type of Hrun with
  | set_academy_version_string _ ?x = _ => set (w2 := x) in *
  end.
  destruct (files w2 !! ACADEMY_PATH) as [atext|] eqn:Ha; last first.
  { by rewrite (set_academy_version_string_missing _ _ Ha) in Hrun. }
  rewrite (set_academy_version_string_run _ _ _ Ha) in Hrun.
  destruct (map_outcome (rewritten pkg) (file_lines atext)) as [lines1|] eqn:Hmap; [|done].
  destruct (decide (marker_count (file_lines atext) ≠ 1)); [done|].
  injection Hrun as <-. cbn [files stdout].
  set (F1 := <[ACADEMY_PATH := Str.join_lines lines1]> (files w2)).
  assert (F1 !! UNITY_PACKAGE_JSON_PATH = Some (json_dumps 2 j')) as HF1m.
  { unfold F1, w2. cbn [files].
    rewrite lookup_insert_ne by (apply not_eq_sym, manifest_not_academy).
    apply lookup_insert_eq. }
  assert (F1 !! ACADEMY_PATH = Some (Str.join_lines lines1)) as HF1a
    by apply lookup_insert_eq.
  assert (∀ d, d ∈ DIRECTORIES →
            F1 !! component_path d =
            Some (expected_version_file python_version release_tag)) as Hcomp.
  { intros d Hd. unfold F1, w2. cbn [files].
    rewrite lookup_insert_ne by (apply not_eq_sym; by apply component_path_not_academy).
    rewrite lookup_insert_ne by (apply not_eq_sym; by apply component_path_not_manifest).
    by apply components_written_component. }
  assert (∀ out, files (components_written python_version release_tag (mkWorld F1 out)) = F1)
    as Hcw.
  { intros out. unfold components_written. cbn [files]. by apply components_again. }
  rewrite set_version_unfold
    by (intros d Hd; apply can_write_existing; eexists; exact (Hcomp d Hd)).
  cbv zeta. fold pkg. fold msg_a msg_b.
  erewrite native_steps_run; last first.
  { eapply (set_package_version_ok pkg (json_dumps 2 j') j' j').
    - cbn [files]. by rewrite Hcw.
    - by apply (Hjson v mtext j).
    - by apply (updated_manifest_idem pkg j). }
  cbn [files stdout]. rewrite Hcw. rewrite (insert_id F1) by done.
  match goal with
  | |- files (set_academy_version_string _ ?x).2 = _ => set (w3 := x)
  end.
  rewrite (set_academy_version_string_run pkg (Str.join_lines lines1) w3) by done.
  assert (no_line_break pkg) as Hpkg by (apply no_line_break_preview; by apply Hbreak).
  rewrite (file_lines_rewritten pkg atext lines1 Hpkg Hmap).
  destruct (map_outcome (rewritten pkg) lines1) as [lines2|] eqn:Hmap2; [|done].
  destruct (decide (marker_count lines1 ≠ 1)); [done|].
  cbn [snd files]. rewrite (map_rewritten_twice pkg _ _ _ Hmap Hmap2).
  by apply insert_id.
Qed.
End Idempotence.

(** * Mode dispatch *)

Section Dispatch.
Context `{JsonCodec} `{Disk}.

(** C10.  The dispatch tests the truth value of the Python version: with the
    empty string [main] behaves as with no version at all, that is, it runs
    [check_versions], leaves the files alone and exits with 0 or 1; only a
    version that is a non-empty string makes it run [set_version]. *)
Theorem main_dispatch (w : World) :
  (∀ csharp tag rest,
     main (mkArgs (Some "") csharp tag rest) w = main (mkArgs None csharp tag rest) w ∧
     main (mkArgs (Some "") csharp tag rest) w =
       (match check_versions w with
        | (Ok ok, w') => (Ok (if ok : bool then 0 else 1), w')
        | (Raise e, w') => (Raise e, w')
        end) ∧
     files (main (mkArgs (Some "") csharp tag rest) w).2 = files w) ∧
  (∀ args, (¬ ∃ s, python_version args = Some s ∧ s ≠ "") →
     main args w =
       (match check_versions w with
        | (Ok ok, w') => (Ok (if ok : bool then 0 else 1), w')
        | (Raise e, w') => (Raise e, w')
        end)) ∧
  (∀ args s, python_version args = Some s → s ≠ "" →
     main args w =
       (match
          set_version (Some s) (csharp_version args) (release_tag args)
            (mkWorld (files w)
               (stdout w ++ ["Updating python library to version " +:+ s] ++
                if truthy (csharp_version args)
                then ["Updating C# package to version " +:+
                      str_of_optional (csharp_version args)]
                else []))
        with
        | (Ok _, w') => (Ok 0, w')
        | (Raise e, w') => (Raise e, w')
        end)).
Proof.
  assert (∀ args, truthy (python_version args) = false →
            main args w =
              (match check_versions w with
               | (Ok ok, w') => (Ok (if ok : bool then 0 else 1), w')
               | (Raise e, w') => (Raise e, w')
               end)) as Hcheck.
  { intros args Hfalse. unfold main. rewrite Hfalse. unfold bind, ret.
    by destruct (check_versions w) as [[ok|e] w']. }
  split; [|split].
  - intros csharp tag rest. rewrite !Hcheck by done. split; [done|]. split; [done|].
    pose proof (check_versions_frame w) as Hframe.
    by destruct (check_versions w) as [[ok|e] w'].
  - intros args Hnot. apply Hcheck. destruct (python_version args) as [s|]; [|done].
    cbn [truthy]. destruct (decide (s = "")); [done|]. exfalso. apply Hnot. by exists s.
  - intros args s Hs Hne. unfold main. rewrite Hs. cbn [truthy].
    rewrite decide_False by done. unfold bind at 1. unfold print at 1.
    unfold bind at 1. cbn [str_of_optional].
    destruct (truthy (csharp_version args)); unfold print, ret, bind; cbn [files stdout];
      rewrite <- ?app_assoc; cbn [app];
      by destruct (set_version _ _ _ _) as [[[]|e] w'].
Qed.
End Dispatch.

(** * The statements on concrete repositories *)

Module Witnesses.
Import Examples.
#[local] Existing Instance RefJson.codec.
#[local] Existing Instance disk.

Local Ltac run := vm_compute; reflexivity.

Lemma repo_has_components (academy : string) :
  ∀ d, d ∈ DIRECTORIES → is_Some (files (repo_with academy) !! component_path d).
Proof.
  intros d Hd. unfold DIRECTORIES in Hd. rewrite !elem_of_cons in Hd.
  destruct Hd as [->|[->|[->|Hd]]]; [vm_compute; eexists; reflexivity..|].
  by apply elem_of_nil in Hd.
Defined.

Lemma check_versions_spec_witness :
  ∃ (tokens : list (option string)) (ok : bool) (w' : World),
    Forall2 (fun d t => extract_version_string (component_path d) repo = (Ok t, repo))
      DIRECTORIES tokens ∧
    check_versions repo = (Ok ok, w') ∧
    files w' = files repo ∧
    (ok = true ↔
       size (list_to_set tokens : gset (option string)) = 1 ∧
       None ∉ (list_to_set tokens : gset (option string))) ∧
    (ok = true ↔ ∃ T, ∀ t, t ∈ tokens → t = Some T) ∧
    ((∃ t t', t ∈ tokens ∧ t' ∈ tokens ∧ t ≠ t') ∨ None ∈ tokens → ok = false).
Proof. exact (check_versions_spec repo (repo_has_components academy_text)). Defined.

Lemma set_version_writes_components_witness :
  Forall
    (fun directory =>
       files (set_version (Some "0.17.0") (Some "1.0.0") None repo).2
         !! component_path directory =
       Some (expected_version_file (Some "0.17.0") None))
    DIRECTORIES.
Proof.
  exact (set_version_writes_components (Some "0.17.0") (Some "1.0.0") None repo
           (repo_has_components academy_text)).
Defined.


Lemma academy_line_rewrite_witness :
  let left_ := "    internal const string k_PackageVersion" in
  let right_ := Str.quote +:+ "0.15.0-preview" +:+ Str.quote +:+ ";" +:+ Str.nl in
  let new_line (version : string) : string :=
    left_ +:+ " = " +:+ String Char.DQ (version +:+ String Char.DQ (";" +:+ Str.nl)) in
  marker_line (Str.quote +:+ "0.15.0-preview" +:+ Str.quote) = left_ +:+ " = " +:+ right_ ∧
  (∀ a b, marker_line (Str.quote +:+ "0.15.0-preview" +:+ Str.quote) = a +:+ " = " +:+ b →
          String.length left_ ≤ String.length a) ∧
  (∀ new_version,
     set_academy_version_string new_version repo =
       (Ok tt,
        mkWorld (<[ACADEMY_PATH :=
                    Str.join_lines (<[2 := new_line new_version]> (file_lines academy_text))]>
                   (files repo))
          (stdout repo))) ∧
  ∃ w',
    set_version (Some "0.17.0") (Some "1.0.0") None repo = (Ok tt, w') ∧
    files w' !! ACADEMY_PATH =
      Some (Str.join_lines (<[2 := new_line ("1.0.0" +:+ "-preview")]>
                              (file_lines academy_text))).
Proof.
  intros left_ right_ new_line.
  destruct (academy_line_rewrite (Some "0.17.0") None "1.0.0" academy_text repo 2
              (marker_line (Str.quote +:+ "0.15.0-preview" +:+ Str.quote)) left_ right_)
    as (Hline & Hfirst & Hstep & Hrun).
  - run.
  - run.
  - run.
  - intros k l' Hk Hl. destruct k as [|[|[|[|k]]]]; vm_compute in Hl.
    + injection Hl as <-. run.
    + injection Hl as <-. run.
    + lia.
    + injection Hl as <-. run.
    + discriminate Hl.
  - run.
  - split; [exact Hline|]. split; [exact Hfirst|]. split; [exact Hstep|].
    apply (Hrun manifest_text manifest manifest_updated).
    + apply repo_has_components.
    + run.
    + run.
    + run.
Defined.

Lemma set_version_then_extract_witness :
  let w' := (set_version (Some "9.9.9") (Some "1.0.0") None repo).2 in
  let token := String Char.DQ ("9.9.9" +:+ String Char.DQ "") in
  Forall
    (fun directory =>
       extract_version_string (component_path directory) w' = (Ok (Some token), w'))
    DIRECTORIES ∧
  ∃ w'', check_versions w' = (Ok true, w'') ∧ files w'' = files w'.
Proof.
  exact (set_version_then_extract (Some "1.0.0") repo (repo_has_components academy_text)).
Defined.

Lemma set_version_idempotent_witness :
  let w1 := (set_version (Some "0.17.0") (Some "1.0.0") (Some "release_1") repo).2 in
  files (set_version (Some "0.17.0") (Some "1.0.0") (Some "release_1") w1).2 = files w1.
Proof.
  apply (set_version_idempotent (Some "0.17.0") (Some "1.0.0") (Some "release_1") repo).
  - run.
  - intros v [= <-]. split; run.
  - intros v mtext j j' [= <-] Hm Hj Hup.
    vm_compute in Hm. injection Hm as <-.
    vm_compute in Hj. injection Hj as <-.
    vm_compute in Hup. injection Hup as <-.
    run.
Defined.

Lemma manifest_update_witness :
  ∃ fields' : list (string * json),
    set_package_version ("1.0.0" +:+ "-preview") repo =
      (Ok tt, mkWorld (<[UNITY_PACKAGE_JSON_PATH := json_dumps 2 (JObj fields')]> (files repo))
                (stdout repo)) ∧
    files (set_version (Some "0.17.0") (Some "1.0.0") None repo).2 !! UNITY_PACKAGE_JSON_PATH =
      Some (json_dumps 2 (JObj fields')) ∧
    dict_get "version" fields' =
      (if dict_has "version"
            [ ("name", JStr "com.unity.ml-agents"); ("version", JStr "0.15.0-preview");
              ("unity", JStr "2018.4") ]
       then Some (JStr ("1.0.0" +:+ "-preview")) else None) ∧
    (∀ k, k ≠ "version" →
          dict_get k fields' =
          dict_get k [ ("name", JStr "com.unity.ml-agents"); ("version", JStr "0.15.0-preview");
                       ("unity", JStr "2018.4") ]) ∧
    fields'.*1 =
      [ ("name", JStr "com.unity.ml-agents"); ("version", JStr "0.15.0-preview");
        ("unity", JStr "2018.4") ].*1 ∧
    (dict_has "version"
       [ ("name", JStr "com.unity.ml-agents"); ("version", JStr "0.15.0-preview");
         ("unity", JStr "2018.4") ] = false →
     fields' =
       [ ("name", JStr "com.unity.ml-agents"); ("version", JStr "0.15.0-preview");
         ("unity", JStr "2018.4") ]).
Proof.
  apply (manifest_update (Some "0.17.0") None "1.0.0" manifest_text).
  - apply repo_has_components.
  - run.
  - run.
Defined.


Lemma main_dispatch_witness :
  main (mkArgs (Some "") (Some "1.0.0") None []) repo =
  main (mkArgs None (Some "1.0.0") None []) repo.
Proof. exact (proj1 (proj1 (main_dispatch repo) (Some "1.0.0") None [])). Defined.
End Witnesses.

(** * Where the statements of the specification fail *)

Module Counterexamples.
Import Examples.
#[local] Existing Instance RefJson.codec.
#[local] Existing Instance disk.


(** C4 as stated: a marker line that holds the separator twice is not
    rewritten after its first separator; the step raises and the file
    stays.  Nor are two marker lines rewritten, each with its one
    separator: the count check raises before anything is written. *)
Lemma two_separators_not_rewritten :
  let w := repo_with academy_two_separators in
  let w2 := repo_with academy_two_markers in
  file_lines academy_two_separators = [marker_line "a = b"] ∧
  Str.cut " = " (marker_line "a = b") =
    Some ("    internal const string k_PackageVersion", "a = b;" +:+ Str.nl) ∧
  set_academy_version_string "1.0.0-preview" w = (Raise ValueError, w) ∧
  files (set_version (Some "0.17.0") (Some "1.0.0") None w).2 !! ACADEMY_PATH =
    Some academy_two_separators ∧
  file_lines academy_two_markers = [marker_line "0"; marker_line "1"] ∧
  Str.split " = " (marker_line "0") =
    ["    internal const string k_PackageVersion"; "0;" +:+ Str.nl] ∧
  Str.split " = " (marker_line "1") =
    ["    internal const string k_PackageVersion"; "1;" +:+ Str.nl] ∧
  set_academy_version_string "1.0.0-preview" w2 =
    (Raise (RuntimeError (found_message 2)), w2) ∧
  files (set_version (Some "0.17.0") (Some "1.0.0") None w2).2 !! ACADEMY_PATH =
    Some academy_two_markers.
Proof. repeat split; vm_compute; reflexivity. Qed.

(** C6 as stated: with a line feed in the native version both invocations
    succeed, and the second one leaves a different [Academy.cs]. *)
Lemma line_break_not_idempotent :
  let run := set_version (Some "0.17.0") (Some broken_version) None in
  let w1 := (run repo).2 in
  (run repo).1 = Ok tt ∧
  (run w1).1 = Ok tt ∧
  json_loads (Str.translate_newlines (json_dumps 2 (JObj
    [ ("name", JStr "com.unity.ml-agents");
      ("version", JStr (broken_version +:+ "-preview"));
      ("unity", JStr "2018.4") ]))) =
    Some (JObj
    [ ("name", JStr "com.unity.ml-agents");
      ("version", JStr (broken_version +:+ "-preview"));
      ("unity", JStr "2018.4") ]) ∧
  files (run w1).2 !! ACADEMY_PATH ≠ files w1 !! ACADEMY_PATH.
Proof.
  repeat split; try (vm_compute; reflexivity).
  intros Heq. vm_compute in Heq. discriminate Heq.
Qed.
End Counterexamples.

(** * Further properties of the checker *)

Lemma check_loop_missing (fs : gmap string string) (pre post : list string) (d : string) :
  (∀ x, x ∈ pre → is_Some (fs !! component_path x)) →
  fs !! component_path d = None →
  ∀ (m0 : gmap string (option string)) (out : list string),
    (for_fold (pre ++ d :: post) m0
       (fun version_by_dir directory =>
          let path := path_join directory "__init__.py" in
          version <- extract_version_string path ;;
          print ("Found version " +:+ str_of_optional version +:+ " for " +:+ directory) ;;
          ret (<[directory := version]> version_by_dir))
       (mkWorld fs out)) =
    (Raise (FileNotFoundError (component_path d)),
     mkWorld fs (out ++ (found_line fs <$> pre))).
Proof.
  intros Hpre Hd. induction pre as [|x pre IH]; intros m0 out.
  - cbn [app for_fold fmap list_fmap]. rewrite app_nil_r.
    erewrite bind_raise; [done|].
    erewrite bind_raise; [done|].
    by apply (extract_version_string_missing _ (mkWorld fs out)).
  - destruct (Hpre x) as [content Hc]; [by left|].
    cbn [app for_fold fmap list_fmap].
    erewrite bind_ok; last first.
    { erewrite bind_ok; last by apply (extract_version_string_ok _ content).
      unfold print, bind, ret; cbn. reflexivity. }
    rewrite IH by (intros; apply Hpre; by right).
    unfold found_line at 2, token_in. rewrite Hc.
    by rewrite <- app_assoc.
Qed.

(** X1.  When the version file of a configured component is missing (and
    those of the components before it are there), [check_versions] does not
    return [False]: it raises [FileNotFoundError] for that file, having
    printed the lines of the components before it, and leaves the files
    alone. *)
Theorem check_versions_missing_file (w : World) (pre post : list string) (d : string) :
  DIRECTORIES = pre ++ d :: post →
  (∀ x, x ∈ pre → is_Some (files w !! component_path x)) →
  files w !! component_path d = None →
  check_versions w =
    (Raise (FileNotFoundError (component_path d)),
     mkWorld (files w) (stdout w ++ (found_line (files w) <$> pre))).
Proof.
  intros Hdirs Hpre Hd. destruct w as [fs out]. cbn [files stdout] in *.
  unfold check_versions. rewrite Hdirs.
  erewrite bind_raise; [done|]. by apply check_loop_missing.
Qed.

(** X2.  With the three version files present, [check_versions] prints one
    line per configured directory, in the configured order, and after them
    the complaint exactly when it returns [False]; nothing else changes. *)
Theorem check_versions_output (w : World) :
  (∀ d, d ∈ DIRECTORIES → is_Some (files w !! component_path d)) →
  ∃ ok : bool,
    check_versions w =
      (Ok ok,
       mkWorld (files w)
         (stdout w ++ (found_line (files w) <$> DIRECTORIES) ++
          if ok then [] else ["Each setup.py must have the same VERSION string."])).
Proof.
  intros Hall. destruct w as [fs out]. cbn [files stdout] in *.
  unfold check_versions.
  erewrite bind_ok by (by apply check_loop_run).
  destruct (bool_decide _ || bool_decide _).
  - exists false. unfold bind, print, ret. cbn [files stdout]. by rewrite <- app_assoc.
  - exists true. unfold ret. by rewrite app_nil_r.
Qed.

Section ExitCode.
Context `{JsonCodec} `{Disk}.

(** X3.  Called without a Python version (or with the empty one) on a
    repository whose three version files exist, [main] does not raise: it
    exits with 0 when all three files give the same token, and with 1
    otherwise; the files are untouched. *)
Theorem main_exit_code (args : Args) (w : World) :
  truthy (python_version args) = false →
  (∀ d, d ∈ DIRECTORIES → is_Some (files w !! component_path d)) →
  ∃ (code : nat) (w' : World),
    main args w = (Ok code, w') ∧
    files w' = files w ∧
    (code = 0 ↔ ∃ T, ∀ d, d ∈ DIRECTORIES → token_in (files w) d = Some T) ∧
    (code ≠ 0 → code = 1).
Proof.
  intros Hmode Hall. destruct (check_versions_run w Hall) as (w' & Hrun & Hfiles).
  cbv zeta in Hrun.
  set (tokens := token_in (files w) <$> DIRECTORIES) in *.
  pose proof (one_value_set tokens ltac:(done)) as Hone.
  unfold main. rewrite Hmode. unfold bind, ret. rewrite Hrun.
  eexists _, w'. split; [reflexivity|]. split; [done|].
  assert ((∃ T, ∀ t, t ∈ tokens → t = Some T) ↔
          (∃ T, ∀ d, d ∈ DIRECTORIES → token_in (files w) d = Some T)) as Hsame.
  { split; intros [T HT]; exists T.
    - intros d Hd. apply HT. apply list_elem_of_fmap. by exists d.
    - intros t (d & -> & Hd)%list_elem_of_fmap. by apply HT. }
  rewrite <- Hsame, <- Hone.
  destruct (decide (size (list_to_set tokens : gset (option string)) = 1)) as [Hs|Hs];
    [destruct (decide (None ∈ (list_to_set tokens : gset (option string)))) as [Hn|Hn]|].
  - rewrite (bool_decide_eq_true_2 _ Hn), orb_true_r. cbn [negb].
    split; [|done]. split; [done|]. by intros [_ ?].
  - rewrite bool_decide_eq_false_2 by (intros Hx; exact (Hx Hs)).
    rewrite (bool_decide_eq_false_2 _ Hn). cbn [negb orb]. split; [|done]. by split.
  - rewrite (bool_decide_eq_true_2 _ Hs). cbn [negb orb].
    split; [|done]. split; [done|]. by intros [? _].
Qed.
End ExitCode.

(** * Further properties of the writer *)

Lemma translate_app_no_cr (a b : string) :
  has_char Char.CR a = false →
  Str.translate_newlines (a +:+ b) = a +:+ Str.translate_newlines b.
Proof.
  induction a as [|c a IH]; [done|]. cbn [has_char].
  intros [Hc Ha]%orb_false_iff. apply bool_decide_eq_false_1 in Hc.
  rewrite !StrFacts.app_cons. cbn [Str.translate_newlines].
  rewrite decide_False by done. by rewrite IH.
Qed.

(** A text without line feed in front of other text joins its first line. *)
Lemma splitlines_prefix (p s : string) :
  has_char Char.LF p = false →
  Str.splitlines (p +:+ s) =
    match Str.splitlines s with
    | [] => if decide (p = "") then [] else [p]
    | l :: ls => (p +:+ l) :: ls
    end.
Proof.
  induction p as [|c p IH].
  - intros _. rewrite StrFacts.app_nil_l. by destruct (Str.splitlines s).
  - cbn [has_char]. intros [Hc Hp]%orb_false_iff. apply bool_decide_eq_false_1 in Hc.
    rewrite StrFacts.app_cons. cbn [Str.splitlines]. rewrite decide_False by done.
    rewrite IH by done. destruct (Str.splitlines s) as [|l ls]; [|done].
    destruct (decide (p = "")) as [->|Hne]; [done|]. by destruct p.
Qed.

Lemma splitlines_nl (s : string) :
  Str.splitlines (Str.nl +:+ s) = Str.nl :: Str.splitlines s.
Proof. exact (LineFacts.splitlines_line "" s eq_refl). Qed.

(** Whatever the values are, the written version file has a line that
    starts with the marker, so a token is found in it. *)
Lemma version_token_written (version tag : option string) :
  is_Some (version_token (expected_version_file version tag)).
Proof.
  unfold expected_version_file, version_token, file_lines. cbv zeta.
  match goal with
  | |- context [Str.nl +:+ ?c1 +:+ Str.nl +:+ ?m +:+ ?X] =>
      set (comment := c1); set (rest := X); change m with VERSION_LINE_START
  end.
  rewrite (translate_app_no_cr Str.nl) by done.
  rewrite (translate_app_no_cr comment) by done.
  rewrite (translate_app_no_cr Str.nl) by done.
  rewrite (translate_app_no_cr VERSION_LINE_START) by done.
  rewrite splitlines_nl.
  rewrite (LineFacts.splitlines_line comment _ eq_refl).
  rewrite (splitlines_prefix VERSION_LINE_START) by done.
  assert (∀ l ls,
            is_Some (first_version_line
                       (Str.nl :: (comment +:+ Str.nl) ::
                        (VERSION_LINE_START +:+ l) :: ls))) as Hfound.
  { intros l ls. cbn [first_version_line].
    assert (Str.startswith VERSION_LINE_START Str.nl = false) as -> by done.
    assert (Str.startswith VERSION_LINE_START (comment +:+ Str.nl) = false) as -> by done.
    rewrite StrFacts.startswith_app. by eexists. }
  destruct (Str.splitlines (Str.translate_newlines rest)) as [|l ls].
  - rewrite decide_False by done.
    specialize (Hfound "" []). by rewrite StrFacts.app_nil_r in Hfound.
  - apply Hfound.
Qed.

Lemma check_versions_same_token (w : World) (content token : string) :
  (∀ d, d ∈ DIRECTORIES → files w !! component_path d = Some content) →
  version_token content = Some token →
  ∃ w', check_versions w = (Ok true, w') ∧ files w' = files w.
Proof.
  intros Hfiles Htok.
  destruct (check_versions_run w) as (w' & Hrun & Hsame).
  { intros d Hd. rewrite (Hfiles d Hd). by eexists. }
  exists w'. split; [|done]. rewrite Hrun. do 2 f_equal. cbv zeta.
  assert (token_in (files w) <$> DIRECTORIES = [Some token; Some token; Some token]) as ->.
  { transitivity ((fun _ : string => Some token) <$> DIRECTORIES); [|done].
    apply Forall_fmap_ext_1, Forall_forall. intros d Hd.
    unfold token_in. by rewrite (Hfiles d Hd), Htok. }
  destruct (one_value_set [Some token; Some token; Some token] ltac:(done)) as [_ Hone].
  destruct Hone as [Hsize Hnone].
  { exists token. intros t Ht. rewrite !elem_of_cons in Ht.
    destruct Ht as [->|[->|[->|Ht]]]; [done..|by apply elem_of_nil in Ht]. }
  rewrite bool_decide_eq_false_2 by (intros Hx; exact (Hx Hsize)).
  rewrite (bool_decide_eq_false_2 _ Hnone). reflexivity.
Qed.

Section AfterWriting.
Context `{JsonCodec} `{Disk}.

(** X4.  On a repository that has the three component version files,
    whatever its arguments are and whether or not one of its later steps
    raises, [set_version] leaves a repository on which [check_versions]
    returns [True]: the three version files hold the same text, and that
    text has a line starting with the marker. *)
Theorem check_versions_after_set_version
    (python_version csharp_version release_tag : option string) (w : World) :
  (∀ d, d ∈ DIRECTORIES → is_Some (files w !! component_path d)) →
  let w' := (set_version python_version csharp_version release_tag w).2 in
  ∃ (token : string) (w'' : World),
    Forall
      (fun directory =>
         extract_version_string (component_path directory) w' = (Ok (Some token), w'))
      DIRECTORIES ∧
    check_versions w' = (Ok true, w'') ∧
    files w'' = files w'.
Proof.
  intros Hall w'.
  destruct (version_token_written python_version release_tag) as [token Htok].
  assert (∀ d, d ∈ DIRECTORIES →
            files w' !! component_path d =
              Some (expected_version_file python_version release_tag))
    as Hfiles by (intros; apply set_version_component; [by apply existing_writable|done]).
  destruct (check_versions_same_token w' _ _ Hfiles Htok) as (w'' & Hrun & Hsame).
  exists token, w''. split; [|done].
  apply Forall_forall. intros d Hd.
  rewrite (extract_version_string_ok _ _ _ (Hfiles d Hd)). by rewrite Htok.
Qed.

(** X5.  On a repository that has the three component version files,
    [set_version] touches no file other than these, the manifest and
    [Academy.cs]; without a native version it succeeds and touches the
    three version files only. *)
Theorem set_version_frame
    (python_version csharp_version release_tag : option string) (w : World) :
  (∀ d, d ∈ DIRECTORIES → is_Some (files w !! component_path d)) →
  let r := set_version python_version csharp_version release_tag w in
  (∀ p, (∀ d, d ∈ DIRECTORIES → component_path d ≠ p) →
        p ≠ UNITY_PACKAGE_JSON_PATH → p ≠ ACADEMY_PATH →
        files r.2 !! p = files w !! p) ∧
  (csharp_version = None →
   r.1 = Ok tt ∧
   ∀ p, (∀ d, d ∈ DIRECTORIES → component_path d ≠ p) → files r.2 !! p = files w !! p).
Proof.
  intros Hall r. unfold r. rewrite set_version_unfold by (by apply existing_writable). split.
  - intros p Hcomp Hm Ha. destruct csharp_version as [v|].
    + cbv zeta. rewrite native_steps_other by done. by apply foldl_insert_other.
    + by apply foldl_insert_other.
  - intros ->. split; [done|]. intros p Hcomp. by apply foldl_insert_other.
Qed.

(** X6.  On a repository that has the three component version files, when
    a native version is given and the manifest is missing or is not valid
    JSON, [set_version] raises ([FileNotFoundError] for the manifest,
    respectively [JSONDecodeError]) after the three version files have been
    rewritten; the manifest and [Academy.cs] are as before. *)
Theorem set_version_manifest_unreadable
    (python_version release_tag : option string) (v : string) (w : World) :
  (∀ d, d ∈ DIRECTORIES → is_Some (files w !! component_path d)) →
  (files w !! UNITY_PACKAGE_JSON_PATH = None ∨
   ∃ mtext, files w !! UNITY_PACKAGE_JSON_PATH = Some mtext ∧
            json_loads (Str.translate_newlines mtext) = None) →
  ∃ (e : exn) (w' : World),
    set_version python_version (Some v) release_tag w = (Raise e, w') ∧
    e = match files w !! UNITY_PACKAGE_JSON_PATH with
        | Some _ => JSONDecodeError
        | None => FileNotFoundError UNITY_PACKAGE_JSON_PATH
        end ∧
    Forall
      (fun directory =>
         files w' !! component_path directory =
         Some (expected_version_file python_version release_tag))
      DIRECTORIES ∧
    files w' !! UNITY_PACKAGE_JSON_PATH = files w !! UNITY_PACKAGE_JSON_PATH ∧
    files w' !! ACADEMY_PATH = files w !! ACADEMY_PATH.
Proof.
  intros Hall Hbad. rewrite set_version_unfold by (by apply existing_writable). cbv zeta.
  set (wc := components_written python_version release_tag w).
  match goal with
  | |- context [(print ?a ;; _ ;; print ?b ;; _) wc] => set (msg_a := a); set (msg_b := b)
  end.
  set (w0 := mkWorld (files wc) (stdout wc ++ [msg_a])).
  assert (files w0 !! UNITY_PACKAGE_JSON_PATH = files w !! UNITY_PACKAGE_JSON_PATH) as Hm
    by apply components_written_manifest.
  assert (∃ e, set_package_version (v +:+ "-preview") w0 = (Raise e, w0) ∧
               e = match files w !! UNITY_PACKAGE_JSON_PATH with
                   | Some _ => JSONDecodeError
                   | None => FileNotFoundError UNITY_PACKAGE_JSON_PATH
                   end)
    as (e & Hraise & He).
  { destruct Hbad as [Hnone|(mtext & Hsome & Hparse)].
    - rewrite Hnone in Hm |- *. eexists. split; [|done].
      unfold set_package_version.
      by rewrite (bind_raise _ _ _ _ _ (read_text_missing _ _ Hm)).
    - rewrite Hsome in Hm |- *. eexists. split; [|done].
      unfold set_package_version.
      rewrite (bind_ok _ _ _ _ _ (read_text_ok _ _ _ Hm)).
      unfold bind, lift. by rewrite Hparse. }
  exists e, w0. split; [|split; [done|split; [|split]]].
  - unfold bind at 1. unfold print at 1. unfold bind at 1. fold w0. by rewrite Hraise.
  - apply Forall_forall. intros d Hd. by apply components_written_component.
  - done.
  - apply components_written_academy.
Qed.

(** X7.  On a repository that has the three component version files, when
    a native version is given, the manifest is updated, and [Academy.cs] is
    missing, [set_version] raises [FileNotFoundError] for it after the
    three version files and the manifest have been rewritten. *)
Theorem set_version_academy_missing
    (python_version release_tag : option string) (v mtext : string) (j j' : json)
    (w : World) :
  (∀ d, d ∈ DIRECTORIES → is_Some (files w !! component_path d)) →
  files w !! UNITY_PACKAGE_JSON_PATH = Some mtext →
  json_loads (Str.translate_newlines mtext) = Some j →
  updated_manifest (v +:+ "-preview") j = Ok j' →
  files w !! ACADEMY_PATH = None →
  ∃ w',
    set_version python_version (Some v) release_tag w =
      (Raise (FileNotFoundError ACADEMY_PATH), w') ∧
    Forall
      (fun directory =>
         files w' !! component_path directory =
         Some (expected_version_file python_version release_tag))
      DIRECTORIES ∧
    files w' !! UNITY_PACKAGE_JSON_PATH = Some (json_dumps 2 j') ∧
    files w' !! ACADEMY_PATH = None.
Proof.
  intros Hall Hm Hj Hup Ha. rewrite set_version_unfold by (by apply existing_writable). cbv zeta.
  erewrite native_steps_run; last first.
  { eapply set_package_version_ok; [|exact Hj|exact Hup].
    cbn [files]. by rewrite components_written_manifest. }
  eexists. split.
  - apply set_academy_version_string_missing. cbn [files].
    rewrite lookup_insert_ne by apply manifest_not_academy.
    by rewrite components_written_academy.
  - cbn [files]. split; [|split].
    + apply Forall_forall. intros d Hd.
      rewrite lookup_insert_ne by (apply not_eq_sym; by apply component_path_not_manifest).
      by apply components_written_component.
    + apply lookup_insert_eq.
    + rewrite lookup_insert_ne by apply manifest_not_academy.
      by rewrite components_written_academy.
Qed.
End AfterWriting.

(** * Further properties of the manifest step *)

Lemma existsb_is_version (items : list json) :
  existsb (fun y => match y with JStr s => bool_decide (s = "version") | _ => false end) items
    = true ↔ JStr "version" ∈ items.
Proof.
  induction items as [|x items IH]; cbn [existsb].
  - split; [done|]. by intros ?%elem_of_nil.
  - rewrite orb_true_iff, elem_of_cons, IH. split.
    + intros [Hx|Hin]; [|by right]. left.
      destruct x; try done. by apply bool_decide_eq_true_1 in Hx as ->.
    + intros [<-|Hin]; [|by right]. left. by apply bool_decide_eq_true_2.
Qed.

Section ManifestValues.
Context `{JsonCodec} `{Disk}.

(** X8.  When the manifest parses to something that is not an object,
    [set_package_version] raises [TypeError] and writes nothing if the
    value is a number, a boolean, null, a list with the item [version] or a
    string containing [version]; for any other list or string it rewrites
    the manifest with the value unchanged. *)
Theorem set_package_version_not_object
    (new_version mtext : string) (j : json) (w : World) :
  files w !! UNITY_PACKAGE_JSON_PATH = Some mtext →
  json_loads (Str.translate_newlines mtext) = Some j →
  (∀ fields, j ≠ JObj fields) →
  (refuses_version_key j → set_package_version new_version w = (Raise TypeError, w)) ∧
  (¬ refuses_version_key j →
   set_package_version new_version w =
     (Ok tt, mkWorld (<[UNITY_PACKAGE_JSON_PATH := json_dumps 2 j]> (files w)) (stdout w))).
Proof.
  intros Hf Hj Hobj.
  assert (set_package_version new_version w =
            match updated_manifest new_version j with
            | Ok j' =>
                (Ok tt, mkWorld (<[UNITY_PACKAGE_JSON_PATH := json_dumps 2 j']> (files w))
                          (stdout w))
            | Raise e => (Raise e, w)
            end) as ->.
  { destruct (updated_manifest new_version j) as [j'|e] eqn:Hup.
    - by apply set_package_version_ok with mtext j.
    - unfold set_package_version.
      rewrite (bind_ok _ _ _ _ _ (read_text_ok _ _ _ Hf)).
      unfold bind, lift. rewrite Hj. unfold updated_manifest in Hup.
      destruct (py_in "version" j) as [[|]|e']; try done; [by rewrite Hup|congruence]. }
  unfold updated_manifest.
  destruct j as [| | | |s|items|fields]; cbn [py_in py_setitem refuses_version_key];
    try (split; [done|intros Hno; by destruct Hno]).
  - destruct (Str.contains "version" s); split; try done;
      try (intros Hno; by destruct Hno).
  - destruct (existsb _ items) eqn:Hex; split; try done.
    + intros Hno. destruct Hno. by apply existsb_is_version.
    + intros Hin. apply existsb_is_version in Hin. congruence.
  - by destruct (Hobj fields).
Qed.
End ManifestValues.

(** * The rendering of optional values *)

Lemma app_inj_length (a b x y : string) :
  String.length a = String.length b → a +:+ x = b +:+ y → a = b.
Proof.
  revert b. induction a as [|c a IH]; intros [|d b] Hlen Heq; try done.
  rewrite !StrFacts.app_cons in Heq. injection Heq as -> Heq.
  f_equal. apply IH; [|done]. by injection Hlen.
Qed.

(** X9.  [_escape_non_none] tells its arguments apart: [None] is rendered
    differently from every string, also from the string None, and two
    strings are rendered alike only if they are equal. *)
Theorem escape_non_none_inj (a b : option string) :
  _escape_non_none a = _escape_non_none b ↔ a = b.
Proof.
  split; [|by intros ->].
  destruct a as [a|], b as [b|]; cbn [_escape_non_none]; try done.
  intros Heq. unfold Str.quote in Heq. rewrite !StrFacts.app_cons in Heq.
  injection Heq as Heq. rewrite !StrFacts.app_nil_l in Heq.
  f_equal. apply (app_inj_length a b (String Char.DQ "") (String Char.DQ "")); [|done].
  apply (f_equal String.length) in Heq. rewrite !StrFacts.length_app in Heq.
  cbn in Heq. lia.
Qed.

(** * Occurrences across a character the pattern does not hold *)

Lemma contains_nil (sub : string) : Str.contains sub "" = Str.startswith sub "".
Proof. unfold Str.contains. rewrite StrFacts.cut_unfold. by destruct (Str.startswith sub ""). Qed.

Lemma contains_cons (sub : string) (e : ascii) (r : string) :
  Str.contains sub (String e r) = Str.startswith sub (String e r) || Str.contains sub r.
Proof.
  unfold Str.contains. rewrite (StrFacts.cut_unfold sub (String e r)).
  destruct (Str.startswith sub (String e r)); [done|].
  by destruct (Str.cut sub r) as [[??]|].
Qed.

Lemma startswith_past (c : ascii) (sub x y : string) :
  has_char c sub = false →
  Str.startswith sub (x +:+ String c y) = Str.startswith sub x.
Proof.
  revert sub. induction x as [|e x IH]; intros [|d sub] Hsub.
  - by rewrite !StrFacts.startswith_nil.
  - rewrite StrFacts.app_nil_l, StrFacts.startswith_cons.
    cbn [has_char] in Hsub. apply orb_false_iff in Hsub as [Hd _].
    by rewrite Hd.
  - by rewrite !StrFacts.startswith_nil.
  - rewrite StrFacts.app_cons, !StrFacts.startswith_cons.
    cbn [has_char] in Hsub. apply orb_false_iff in Hsub as [_ Hsub].
    by rewrite IH.
Qed.

Lemma contains_boundary (c : ascii) (sub x y : string) :
  has_char c sub = false →
  Str.contains sub (x +:+ String c y) = Str.contains sub x || Str.contains sub y.
Proof.
  intros Hsub. induction x as [|e x IH].
  - rewrite StrFacts.app_nil_l, contains_cons, contains_nil.
    by rewrite <- (StrFacts.app_nil_l (String c y)), startswith_past.
  - rewrite StrFacts.app_cons, !contains_cons, IH.
    rewrite <- StrFacts.app_cons, startswith_past by done. by rewrite orb_assoc.
Qed.

Lemma contains_app_l (sub a b : string) :
  Str.contains sub a = true → Str.contains sub (a +:+ b) = true.
Proof.
  unfold Str.contains at 1. destruct (Str.cut sub a) as [[p q]|] eqn:Hcut; [|done].
  intros _. apply StrFacts.cut_Some in Hcut as ->.
  rewrite !StrFacts.app_assoc. apply StrFacts.contains_app.
Qed.

Lemma rstrip_keeps (x : string) (q : ascii) :
  Char.isspace q = false →
  Str.rstrip (x +:+ String q Str.nl) = x +:+ String q "".
Proof.
  intros Hq. induction x as [|e x IH].
  - rewrite !StrFacts.app_nil_l. cbn. by rewrite Hq.
  - rewrite !StrFacts.app_cons. cbn [Str.rstrip]. rewrite IH.
    by destruct x.
Qed.

Lemma contains_after_char (c : ascii) (sub y : string) :
  has_char c sub = false →
  Str.contains sub (String c y) = Str.contains sub "" || Str.contains sub y.
Proof. intros Hsub. exact (contains_boundary c sub "" y Hsub). Qed.

Lemma quote_app (s : string) : Str.quote +:+ s = String Char.DQ s.
Proof. reflexivity. Qed.

(** The tail the native-source step writes after the separator holds no
    further separator when the version holds none. *)
Lemma written_tail_no_separator (new_version : string) :
  Str.contains " = " new_version = false →
  Str.contains " = "
    (Str.quote +:+ new_version +:+ Str.quote +:+ ";" +:+ Str.nl) = false.
Proof.
  intros Hv. rewrite !quote_app.
  rewrite (contains_after_char Char.DQ " = ") by done.
  rewrite (contains_boundary Char.DQ " = " new_version) by done.
  by rewrite Hv.
Qed.

(** X10.  In the usual layout (the marker stands left of the only
    separator of its line, and in no other line), with a version that holds
    no line break and no separator, the native-source step succeeds, and
    run again on its own output it succeeds again and changes nothing. *)
Theorem set_academy_version_string_again `{Disk}
    (new_version text : string) (w : World) (i : nat) (l left_ right_ : string) :
  files w !! ACADEMY_PATH = Some text →
  file_lines text !! i = Some l →
  (∀ k l', k ≠ i → file_lines text !! k = Some l' → Str.contains needle l' = false) →
  Str.split " = " l = [left_; right_] →
  Str.contains needle left_ = true →
  no_line_break new_version →
  Str.contains " = " new_version = false →
  ∃ w1,
    set_academy_version_string new_version w = (Ok tt, w1) ∧
    set_academy_version_string new_version w1 = (Ok tt, w1).
Proof.
  intros Hf Hl Hothers Hs Hleft Hbreak Hsep.
  pose proof Hs as Hs'. apply StrFacts.split_two in Hs' as [Hcut _]; [|done].
  assert (Str.contains needle l = true) as Hc.
  { rewrite (StrFacts.cut_Some _ _ _ _ Hcut). by apply contains_app_l. }
  destruct (map_rewritten_single new_version _ _ _ _ _ Hl Hc Hs Hothers) as [Hmap Hcount].
  set (lines1 := <[i := academy_line left_ new_version]> (file_lines text)) in *.
  set (w1 := mkWorld (<[ACADEMY_PATH := Str.join_lines lines1]> (files w)) (stdout w)).
  exists w1. split.
  { rewrite (set_academy_version_string_run _ _ _ Hf), Hmap, Hcount.
    by rewrite decide_False by (intros ?; done). }
  assert (files w1 !! ACADEMY_PATH = Some (Str.join_lines lines1)) as Hf1
    by apply lookup_insert_eq.
  rewrite (set_academy_version_string_run _ _ _ Hf1).
  rewrite (file_lines_rewritten new_version text lines1 Hbreak Hmap).
  assert (i < length (file_lines text)) as Hi by (by apply lookup_lt_Some in Hl).
  destruct (map_rewritten_single new_version lines1 i (academy_line left_ new_version) left_
              (Str.quote +:+ new_version +:+ Str.quote +:+ ";" +:+ Str.nl))
    as [Hmap1 Hcount1].
  - by apply list_lookup_insert_eq.
  - unfold academy_line. by apply contains_app_l.
  - apply StrFacts.split_two; [done|]. split.
    + unfold academy_line. cbv zeta. by apply (StrFacts.cut_first _ l _ right_).
    + by apply written_tail_no_separator.
  - intros k l' Hk Hl'. unfold lines1 in Hl'.
    rewrite list_lookup_insert_ne in Hl' by done. by apply (Hothers k).
  - rewrite Hmap1, Hcount1. rewrite decide_False by (intros ?; done).
    unfold lines1 at 1. rewrite list_insert_insert_eq. fold lines1.
    unfold w1. cbn [files stdout]. by rewrite insert_insert_eq.
Qed.

(** * Reading back any version *)

Lemma version_token_quoted (s : string) (tag : option string) :
  no_line_break s →
  Str.contains VERSION_LINE_START s = false →
  version_token (expected_version_file (Some s) tag) = Some (Str.quote +:+ s +:+ Str.quote).
Proof.
  intros [Hlf Hcr] Hmarker.
  unfold expected_version_file, version_token, file_lines. cbv zeta.
  match goal with
  | |- context [Str.nl +:+ ?c1 +:+ Str.nl +:+ ?m +:+ ?v +:+ Str.nl +:+ ?X] =>
      set (comment := c1); set (rest := X); set (value := v);
      change m with VERSION_LINE_START
  end.
  assert (has_char Char.CR value = false ∧ has_char Char.LF value = false) as [Hvcr Hvlf].
  { unfold value. cbn [has_char]. rewrite !LineFacts.has_char_app, Hlf, Hcr. done. }
  rewrite (translate_app_no_cr Str.nl) by done.
  rewrite (translate_app_no_cr comment) by done.
  rewrite (translate_app_no_cr Str.nl) by done.
  rewrite (translate_app_no_cr VERSION_LINE_START) by done.
  rewrite (translate_app_no_cr value) by done.
  rewrite (translate_app_no_cr Str.nl) by done.
  rewrite splitlines_nl.
  rewrite (LineFacts.splitlines_line comment _ eq_refl).
  rewrite <- (StrFacts.app_assoc VERSION_LINE_START value).
  rewrite (LineFacts.splitlines_line (VERSION_LINE_START +:+ value))
    by (by rewrite LineFacts.has_char_app, Hvlf).
  cbn [first_version_line].
  assert (Str.startswith VERSION_LINE_START Str.nl = false) as -> by done.
  assert (Str.startswith VERSION_LINE_START (comment +:+ Str.nl) = false) as -> by done.
  rewrite StrFacts.app_assoc, StrFacts.startswith_app, replace_marker_prefix.
  f_equal. rewrite StrFacts.replace_absent.
  - unfold value, Str.strip. rewrite StrFacts.app_cons.
    cbn [Str.lstrip]. assert (Char.isspace Char.DQ = false) as -> by done.
    rewrite (StrFacts.app_assoc s).
    rewrite (StrFacts.app_cons Char.DQ "" Str.nl), StrFacts.app_nil_l.
    rewrite <- (StrFacts.app_cons Char.DQ s).
    by rewrite (rstrip_keeps (String Char.DQ s) Char.DQ eq_refl).
  - unfold value. rewrite StrFacts.app_cons.
    rewrite (contains_after_char Char.DQ VERSION_LINE_START) by done.
    rewrite StrFacts.app_assoc, StrFacts.app_cons, StrFacts.app_nil_l.
    rewrite (contains_boundary Char.DQ VERSION_LINE_START s) by done.
    by rewrite Hmarker.
Qed.

Section ReadingBack.
Context `{JsonCodec} `{Disk}.

(** X11.  Round trip for every version that holds no line break and not the
    marker text: on a repository that has the three component version
    files, after [set_version] with it (whatever the other arguments and
    the outcome of the later steps), [extract_version_string] returns that
    version in double quotes for each component version file. *)
Theorem extract_after_set_version
    (s : string) (csharp_version release_tag : option string) (w : World) :
  (∀ d, d ∈ DIRECTORIES → is_Some (files w !! component_path d)) →
  no_line_break s →
  Str.contains VERSION_LINE_START s = false →
  let w' := (set_version (Some s) csharp_version release_tag w).2 in
  Forall
    (fun directory =>
       extract_version_string (component_path directory) w' =
         (Ok (Some (Str.quote +:+ s +:+ Str.quote)), w'))
    DIRECTORIES.
Proof.
  intros Hall Hbreak Hmarker w'. apply Forall_forall. intros d Hd.
  rewrite (extract_version_string_ok _ (expected_version_file (Some s) release_tag))
    by (apply set_version_component; [by apply existing_writable|done]).
  by rewrite version_token_quoted.
Qed.

(** X12.  End to end, on a repository that has the three component version
    files: after a run of [main] in write mode, whether it completed or was
    aborted by an exception after the version files were written, a run of
    [main] in verification mode exits with 0. *)
Theorem main_check_after_write (args args' : Args) (w : World) :
  (∀ d, d ∈ DIRECTORIES → is_Some (files w !! component_path d)) →
  truthy (python_version args) = true →
  truthy (python_version args') = false →
  ∃ w'', main args' (main args w).2 = (Ok 0, w'').
Proof.
  intros Hall Hwrite Hcheck.
  assert (∃ w0, files w0 = files w ∧
                (main args w).2 =
                (set_version (python_version args) (csharp_version args)
                   (release_tag args) w0).2) as (w0 & Hsame & Hw).
  { exists (mkWorld (files w)
              (stdout w ++
               ["Updating python library to version " +:+
                str_of_optional (python_version args)] ++
               if truthy (csharp_version args)
               then ["Updating C# package to version " +:+
                     str_of_optional (csharp_version args)]
               else [])).
    split; [done|]. unfold main. rewrite Hwrite. unfold bind at 1. unfold print at 1.
    unfold bind at 1.
    destruct (truthy (csharp_version args)); unfold print, ret, bind; cbn [files stdout];
      rewrite <- ?app_assoc; cbn [app];
      by destruct (set_version _ _ _ _) as [[[]|e] w1]. }
  rewrite Hw.
  assert (∀ d, d ∈ DIRECTORIES → can_write (files w0) (component_path d) = true) as Hw0
    by (rewrite Hsame; by apply existing_writable).
  destruct (version_token_written (python_version args) (release_tag args)) as [token Htok].
  destruct (check_versions_same_token _ _ _
              (fun d Hd => set_version_component (python_version args) (csharp_version args)
                             (release_tag args) w0 d Hw0 Hd) Htok) as (w'' & Hrun & _).
  exists w''. unfold main. rewrite Hcheck. unfold bind, ret. by rewrite Hrun.
Qed.
End ReadingBack.

(** * Edge cases of the native steps *)



(** X14.  A line that contains the marker and does not split in exactly two
    parts at the separator makes the native-source step raise [ValueError],
    whatever the number of marker lines is; nothing is written. *)
Theorem set_academy_version_string_unsplit `{Disk}
    (new_version text l : string) (w : World) :
  files w !! ACADEMY_PATH = Some text →
  l ∈ file_lines text →
  Str.contains needle l = true →
  length (Str.split " = " l) ≠ 2 →
  set_academy_version_string new_version w = (Raise ValueError, w).
Proof.
  intros Hf Hin Hc Hlen.
  rewrite (set_academy_version_string_run _ _ _ Hf).
  destruct (map_rewritten_cases (file_lines text)) as [[Hall _]|[_ Hraise]].
  - rewrite Forall_forall in Hall. by destruct (Hlen (Hall l Hin Hc)).
  - by rewrite Hraise.
Qed.

(** X15.  A successful native-source step writes [Academy.cs] with line
    feeds only: when the version holds no carriage return, neither does the
    file afterwards, whatever line ends it had before. *)
Theorem set_academy_version_string_line_ends `{Disk}
    (new_version : string) (w w' : World) :
  has_char Char.CR new_version = false →
  set_academy_version_string new_version w = (Ok tt, w') →
  ∃ text', files w' !! ACADEMY_PATH = Some text' ∧ has_char Char.CR text' = false.
Proof.
  intros Hv Hrun. destruct (files w !! ACADEMY_PATH) as [text|] eqn:Hf; last first.
  { by rewrite (set_academy_version_string_missing _ _ Hf) in Hrun. }
  rewrite (set_academy_version_string_run _ _ _ Hf) in Hrun.
  destruct (map_outcome (rewritten new_version) (file_lines text)) as [lines1|] eqn:Hmap;
    [|done].
  destruct (decide (marker_count (file_lines text) ≠ 1)); [done|].
  injection Hrun as <-. eexists. split; [apply lookup_insert_eq|].
  apply LineFacts.has_char_join.
  apply (LineFacts.rewritten_no_cr new_version (file_lines text)); try done.
  apply LineFacts.has_char_join. unfold file_lines.
  rewrite LineFacts.join_splitlines. apply LineFacts.translate_no_cr.
Qed.

Section EmptyNativeVersion.
Context `{JsonCodec} `{Disk}.

Lemma set_version_manifest
    (python_version release_tag : option string) (v mtext : string) (j j' : json)
    (w : World) :
  (∀ d, d ∈ DIRECTORIES → is_Some (files w !! component_path d)) →
  files w !! UNITY_PACKAGE_JSON_PATH = Some mtext →
  json_loads (Str.translate_newlines mtext) = Some j →
  updated_manifest (v +:+ "-preview") j = Ok j' →
  files (set_version python_version (Some v) release_tag w).2 !! UNITY_PACKAGE_JSON_PATH =
    Some (json_dumps 2 j').
Proof.
  intros Hall Hm Hj Hup. rewrite set_version_unfold by (by apply existing_writable). cbv zeta.
  erewrite native_steps_run; last first.
  { eapply set_package_version_ok; [|exact Hj|exact Hup].
    cbn [files]. by rewrite components_written_manifest. }
  rewrite set_academy_version_string_other by apply manifest_not_academy.
  cbn [files]. apply lookup_insert_eq.
Qed.

Lemma set_academy_version_string_stdout (new_version : string) (w : World) :
  stdout (set_academy_version_string new_version w).2 = stdout w.
Proof.
  destruct (files w !! ACADEMY_PATH) as [text|] eqn:Hf.
  - rewrite (set_academy_version_string_run _ _ _ Hf).
    destruct (map_outcome _ _); [|done]. by destruct (decide _).
  - by rewrite (set_academy_version_string_missing _ _ Hf).
Qed.

(** What [set_version] prints: a line per component and, with a native
    version, the lines of the native steps it gets to. *)
Lemma set_version_stdout (version csharp tag : option string) (w : World) :
  (∀ d, d ∈ DIRECTORIES → is_Some (files w !! component_path d)) →
  ∃ added,
    stdout (set_version version csharp tag w).2 = stdout w ++ added ∧
    ∀ line, line ∈ added →
      (∃ d, line = setting_line version d) ∨
      (∃ x, line = "Setting package version to " +:+ x).
Proof.
  intros Hall. rewrite set_version_unfold by (by apply existing_writable).
  destruct csharp as [v|]; last first.
  { eexists. split; [reflexivity|]. intros line (d & -> & _)%list_elem_of_fmap.
    left. by exists d. }
  cbv zeta.
  set (wc := components_written version tag w).
  match goal with
  | |- context [(print ?a ;; _ ;; print ?b ;; _) wc] => set (msg_a := a); set (msg_b := b)
  end.
  assert (∀ line, line ∈ (setting_line version <$> DIRECTORIES) ++ [msg_a; msg_b] →
            (∃ d, line = setting_line version d) ∨
            (∃ x, line = "Setting package version to " +:+ x)) as Hlines.
  { intros line [(d & -> & _)%list_elem_of_fmap|Hin]%elem_of_app; [left; by exists d|].
    right. rewrite !elem_of_cons in Hin.
    destruct Hin as [->|[->|Hin]]; [by eexists..|by apply elem_of_nil in Hin]. }
  destruct (set_package_version_cases (v +:+ "-preview")
              (mkWorld (files wc) (stdout wc ++ [msg_a])))
    as [[e He]|(mtext & j & j' & _ & _ & _ & Hspv)].
  - exists ((setting_line version <$> DIRECTORIES) ++ [msg_a]). split.
    + unfold bind at 1. unfold print at 1. unfold bind at 1. rewrite He.
      cbn [snd stdout]. unfold wc, components_written. cbn [stdout].
      by rewrite <- app_assoc.
    + intros line Hin. apply Hlines. rewrite elem_of_app in Hin |- *.
      destruct Hin as [Hin|Hin]; [by left|right].
      apply list_elem_of_singleton in Hin as ->. by left.
  - exists ((setting_line version <$> DIRECTORIES) ++ [msg_a; msg_b]). split; [|done].
    rewrite (native_steps_run _ _ _ _ _ Hspv).
    rewrite set_academy_version_string_stdout. cbn [stdout].
    unfold wc, components_written. cbn [stdout].
    rewrite <- !app_assoc. done.
Qed.

(** X16.  [main] and [set_version] test the native version differently:
    given the empty string, on a repository that has the three component
    version files, [main] does not announce an update of the C# package
    (the string is false), yet [set_version] runs the native steps (the
    string is not [None]) and the manifest gets the version [-preview]. *)
Theorem main_empty_native_version
    (s mtext : string) (tag : option string) (rest : list string)
    (fields : list (string * json)) (w : World) :
  (∀ d, d ∈ DIRECTORIES → is_Some (files w !! component_path d)) →
  s ≠ "" →
  files w !! UNITY_PACKAGE_JSON_PATH = Some mtext →
  json_loads (Str.translate_newlines mtext) = Some (JObj fields) →
  dict_has "version" fields = true →
  let r := main (mkArgs (Some s) (Some "") tag rest) w in
  files r.2 !! UNITY_PACKAGE_JSON_PATH =
    Some (json_dumps 2 (JObj (dict_set "version" (JStr "-preview") fields))) ∧
  ∃ added,
    stdout r.2 = stdout w ++ added ∧
    "Updating C# package to version " ∉ added.
Proof.
  intros Hall Hs Hm Hj Hhas r.
  set (w0 := mkWorld (files w) (stdout w ++ ["Updating python library to version " +:+ s])).
  assert (r.2 = (set_version (Some s) (Some "") tag w0).2) as ->.
  { unfold r, main. cbn [python_version csharp_version release_tag truthy].
    rewrite decide_False by done. rewrite decide_True by done.
    unfold bind at 1. unfold print at 1. unfold bind at 1. unfold ret at 1.
    cbn [str_of_optional]. fold w0. unfold bind, ret.
    by destruct (set_version _ _ _ w0) as [[[]|e] w1]. }
  split.
  - apply (set_version_manifest (Some s) tag "" mtext (JObj fields)); [done|done|done|].
    unfold updated_manifest. cbn [py_in py_setitem]. by rewrite Hhas.
  - destruct (set_version_stdout (Some s) (Some "") tag w0 Hall) as (added & -> & Hadded).
    exists (("Updating python library to version " +:+ s) :: added).
    split; [unfold w0; cbn [stdout]; by rewrite <- app_assoc|].
    intros [Heq|Hin]%elem_of_cons.
    + vm_compute in Heq. discriminate Heq.
    + destruct (Hadded _ Hin) as [[d Heq]|[x Heq]]; vm_compute in Heq; discriminate Heq.
Qed.
End EmptyNativeVersion.

(** * A component file that cannot be opened *)

Section MissingDirectory.
Context `{JsonCodec} `{Disk}.

(** X18.  When a component version file cannot be opened for writing (it is
    not there and neither is its directory) while those before it can,
    [set_version] raises [FileNotFoundError] for it: the files before it are
    rewritten, the line announcing the write has been printed, and nothing
    else is touched; the native steps do not run. *)
Theorem set_version_unwritable
    (python_version csharp_version release_tag : option string) (w : World)
    (pre post : list string) (d : string) :
  DIRECTORIES = pre ++ d :: post →
  (∀ x, x ∈ pre → can_write (files w) (component_path x) = true) →
  can_write (files w) (component_path d) = false →
  set_version python_version csharp_version release_tag w =
    (Raise (FileNotFoundError (component_path d)),
     mkWorld
       (foldl (fun fs x => <[component_path x :=
                              expected_version_file python_version release_tag]> fs)
          (files w) pre)
       (stdout w ++ (setting_line python_version <$> pre) ++
        [setting_line python_version d])).
Proof.
  intros Hdirs Hpre Hd. unfold set_version.
  erewrite bind_ok; last first.
  { unfold lift. by rewrite format_template. }
  destruct w as [fs out]. rewrite Hdirs.
  erewrite bind_raise; [reflexivity|].
  apply write_loop_stops; [done| |done].
  intros x Hx Heq. cbn [files] in Hpre, Hd. rewrite <- Heq, (Hpre x Hx) in Hd.
  discriminate Hd.
Qed.
End MissingDirectory.

(** * The further properties on concrete repositories *)

Module ExtraWitnesses.
Import Examples MoreExamples LineEndExamples.
#[local] Existing Instance RefJson.codec.
#[local] Existing Instance disk.

Local Ltac run := vm_compute; reflexivity.

Lemma disagreeing_has_components :
  ∀ d, d ∈ DIRECTORIES → is_Some (files repo_disagreeing !! component_path d).
Proof.
  intros d Hd. unfold DIRECTORIES in Hd. rewrite !elem_of_cons in Hd.
  destruct Hd as [->|[->|[->|Hd]]]; [vm_compute; eexists; reflexivity..|].
  by apply elem_of_nil in Hd.
Defined.

Lemma repo_with_components (academy : string) :
  ∀ d, d ∈ DIRECTORIES → is_Some (files (repo_with academy) !! component_path d).
Proof. apply components_present_check. run. Defined.

Lemma check_versions_missing_file_witness :
  check_versions repo_missing_envs =
    (Raise (FileNotFoundError (component_path "ml-agents-envs/mlagents_envs")),
     mkWorld (files repo_missing_envs)
       (stdout repo_missing_envs ++
        (found_line (files repo_missing_envs) <$> ["ml-agents/mlagents/trainers"]))).
Proof.
  apply (check_versions_missing_file repo_missing_envs ["ml-agents/mlagents/trainers"]
           ["gym-unity/gym_unity"] "ml-agents-envs/mlagents_envs").
  - reflexivity.
  - intros x Hx. apply list_elem_of_singleton in Hx as ->. vm_compute. eexists. reflexivity.
  - run.
Defined.

Lemma check_versions_output_witness :
  ∃ ok : bool,
    check_versions repo_disagreeing =
      (Ok ok,
       mkWorld (files repo_disagreeing)
         (stdout repo_disagreeing ++ (found_line (files repo_disagreeing) <$> DIRECTORIES) ++
          if ok then [] else ["Each setup.py must have the same VERSION string."])).
Proof. exact (check_versions_output repo_disagreeing disagreeing_has_components). Defined.

Lemma main_exit_code_witness :
  ∃ (code : nat) (w' : World),
    main (mkArgs None None None []) repo_disagreeing = (Ok code, w') ∧
    files w' = files repo_disagreeing ∧
    (code = 0 ↔
     ∃ T, ∀ d, d ∈ DIRECTORIES → token_in (files repo_disagreeing) d = Some T) ∧
    (code ≠ 0 → code = 1).
Proof.
  exact (main_exit_code (mkArgs None None None []) repo_disagreeing eq_refl
           disagreeing_has_components).
Defined.

Lemma check_versions_after_set_version_witness :
  let w' := (set_version (Some "0.17.0") (Some "1.0.0") None
               (repo_with academy_no_marker)).2 in
  ∃ (token : string) (w'' : World),
    Forall
      (fun directory =>
         extract_version_string (component_path directory) w' = (Ok (Some token), w'))
      DIRECTORIES ∧
    check_versions w' = (Ok true, w'') ∧
    files w'' = files w'.
Proof.
  exact (check_versions_after_set_version (Some "0.17.0") (Some "1.0.0") None
           (repo_with academy_no_marker) (repo_with_components academy_no_marker)).
Defined.

Lemma set_version_frame_witness :
  let r := set_version (Some "0.17.0") None None repo_disagreeing in
  (∀ p, (∀ d, d ∈ DIRECTORIES → component_path d ≠ p) →
        p ≠ UNITY_PACKAGE_JSON_PATH → p ≠ ACADEMY_PATH →
        files r.2 !! p = files repo_disagreeing !! p) ∧
  r.1 = Ok tt ∧
  ∀ p, (∀ d, d ∈ DIRECTORIES → component_path d ≠ p) →
       files r.2 !! p = files repo_disagreeing !! p.
Proof.
  destruct (set_version_frame (Some "0.17.0") None None repo_disagreeing
              disagreeing_has_components) as [Hframe Hnone].
  split; [exact Hframe|]. exact (Hnone eq_refl).
Defined.

Lemma set_version_manifest_unreadable_witness :
  let w := repo_without UNITY_PACKAGE_JSON_PATH in
  ∃ (e : exn) (w' : World),
    set_version (Some "0.17.0") (Some "1.0.0") None w = (Raise e, w') ∧
    e = match files w !! UNITY_PACKAGE_JSON_PATH with
        | Some _ => JSONDecodeError
        | None => FileNotFoundError UNITY_PACKAGE_JSON_PATH
        end ∧
    Forall
      (fun directory =>
         files w' !! component_path directory =
         Some (expected_version_file (Some "0.17.0") None))
      DIRECTORIES ∧
    files w' !! UNITY_PACKAGE_JSON_PATH = files w !! UNITY_PACKAGE_JSON_PATH ∧
    files w' !! ACADEMY_PATH = files w !! ACADEMY_PATH.
Proof.
  apply (set_version_manifest_unreadable (Some "0.17.0") None "1.0.0"
           (repo_without UNITY_PACKAGE_JSON_PATH)).
  - apply components_present_check. run.
  - left. run.
Defined.

Lemma set_version_academy_missing_witness :
  let w := repo_without ACADEMY_PATH in
  ∃ w',
    set_version (Some "0.17.0") (Some "1.0.0") None w =
      (Raise (FileNotFoundError ACADEMY_PATH), w') ∧
    Forall
      (fun directory =>
         files w' !! component_path directory =
         Some (expected_version_file (Some "0.17.0") None))
      DIRECTORIES ∧
    files w' !! UNITY_PACKAGE_JSON_PATH = Some (json_dumps 2 manifest_updated) ∧
    files w' !! ACADEMY_PATH = None.
Proof.
  apply (set_version_academy_missing (Some "0.17.0") None "1.0.0" manifest_text manifest
           manifest_updated (repo_without ACADEMY_PATH)).
  - apply components_present_check. run.
  - run.
  - run.
  - run.
  - run.
Defined.

Lemma set_package_version_not_object_witness :
  let j := JArr [JStr "name"; JStr "version"] in
  let w := repo_with_manifest (RefJson.dumps 2 j) in
  (refuses_version_key j → set_package_version "1.0.0-preview" w = (Raise TypeError, w)) ∧
  (¬ refuses_version_key j →
   set_package_version "1.0.0-preview" w =
     (Ok tt, mkWorld (<[UNITY_PACKAGE_JSON_PATH := json_dumps 2 j]> (files w)) (stdout w))).
Proof.
  apply (set_package_version_not_object "1.0.0-preview"
           (RefJson.dumps 2 (JArr [JStr "name"; JStr "version"]))).
  - run.
  - run.
  - intros fields Heq. discriminate Heq.
Defined.

Lemma set_academy_version_string_again_witness :
  ∃ w1,
    set_academy_version_string "1.0.0-preview" repo = (Ok tt, w1) ∧
    set_academy_version_string "1.0.0-preview" w1 = (Ok tt, w1).
Proof.
  apply (set_academy_version_string_again "1.0.0-preview" academy_text repo 2
           (marker_line (Str.quote +:+ "0.15.0-preview" +:+ Str.quote))
           "    internal const string k_PackageVersion"
           (Str.quote +:+ "0.15.0-preview" +:+ Str.quote +:+ ";" +:+ Str.nl)).
  - run.
  - run.
  - intros k l' Hk Hl. destruct k as [|[|[|[|k]]]]; vm_compute in Hl.
    + injection Hl as <-. run.
    + injection Hl as <-. run.
    + lia.
    + injection Hl as <-. run.
    + discriminate Hl.
  - run.
  - run.
  - split; run.
  - run.
Defined.

Lemma extract_after_set_version_witness :
  let w' := (set_version (Some "1.2.3") (Some "1.0.0") None repo).2 in
  Forall
    (fun directory =>
       extract_version_string (component_path directory) w' =
         (Ok (Some (Str.quote +:+ "1.2.3" +:+ Str.quote)), w'))
    DIRECTORIES.
Proof.
  apply (extract_after_set_version "1.2.3" (Some "1.0.0") None repo).
  - apply repo_with_components.
  - split; run.
  - run.
Defined.

Lemma main_check_after_write_witness :
  ∃ w'',
    main (mkArgs None None None [])
      (main (mkArgs (Some "0.17.0") (Some "1.0.0") None []) (repo_with academy_no_marker)).2 =
    (Ok 0, w'').
Proof.
  exact (main_check_after_write (mkArgs (Some "0.17.0") (Some "1.0.0") None [])
           (mkArgs None None None []) (repo_with academy_no_marker)
           (repo_with_components academy_no_marker) eq_refl eq_refl).
Defined.


Lemma set_academy_version_string_unsplit_witness :
  let w := repo_with academy_unsplit in
  set_academy_version_string "1.0.0-preview" w = (Raise ValueError, w).
Proof.
  apply (set_academy_version_string_unsplit "1.0.0-preview" academy_unsplit
           ("    // see internal const string k_PackageVersion" +:+ Str.nl)).
  - run.
  - assert (file_lines academy_unsplit =
            [ "    // see internal const string k_PackageVersion" +:+ Str.nl;
              marker_line "0" ]) as -> by run.
    left.
  - run.
  - vm_compute. lia.
Defined.

Lemma set_academy_version_string_line_ends_witness :
  let w := repo_with academy_crlf in
  ∃ text',
    files (set_academy_version_string "1.0.0-preview" w).2 !! ACADEMY_PATH = Some text' ∧
    has_char Char.CR text' = false.
Proof.
  apply (set_academy_version_string_line_ends "1.0.0-preview" (repo_with academy_crlf)); run.
Defined.

Lemma main_empty_native_version_witness :
  let r := main (mkArgs (Some "0.17.0") (Some "") None []) repo in
  files r.2 !! UNITY_PACKAGE_JSON_PATH =
    Some (json_dumps 2
            (JObj (dict_set "version" (JStr "-preview")
                     [ ("name", JStr "com.unity.ml-agents");
                       ("version", JStr "0.15.0-preview");
                       ("unity", JStr "2018.4") ]))) ∧
  ∃ added,
    stdout r.2 = stdout repo ++ added ∧
    "Updating C# package to version " ∉ added.
Proof.
  apply (main_empty_native_version "0.17.0" manifest_text None []).
  - apply repo_with_components.
  - intros Heq. discriminate Heq.
  - run.
  - run.
  - run.
Defined.

Lemma extract_version_string_marker_free_witness :
  let filename := component_path "gym-unity/gym_unity" in
  ∃ r : option string,
    extract_version_string filename repo = (Ok r, repo) ∧
    ((∀ l, l ∈ file_lines version_file → Str.startswith VERSION_LINE_START l = false) →
     r = None) ∧
    (∀ before after rest,
       file_lines version_file = before ++ (VERSION_LINE_START +:+ rest) :: after →
       (∀ x, x ∈ before → Str.startswith VERSION_LINE_START x = false) →
       Str.contains VERSION_LINE_START rest = false →
       r = Some (Str.strip rest)).
Proof.
  apply (extract_version_string_marker_free (component_path "gym-unity/gym_unity")
           version_file repo).
  run.
Defined.

Lemma set_version_unwritable_witness :
  let w := mkWorld ∅ [] in
  @set_version RefJson.codec empty_disk (Some "0.17.0") (Some "1.0.0") None w =
    (Raise (FileNotFoundError (component_path "ml-agents/mlagents/trainers")),
     mkWorld ∅ [setting_line (Some "0.17.0") "ml-agents/mlagents/trainers"]).
Proof.
  apply (@set_version_unwritable RefJson.codec empty_disk (Some "0.17.0") (Some "1.0.0") None
           (mkWorld ∅ []) []
           ["ml-agents-envs/mlagents_envs"; "gym-unity/gym_unity"]
           "ml-agents/mlagents/trainers").
  - reflexivity.
  - intros x Hx. by apply elem_of_nil in Hx.
  - run.
Defined.
End ExtraWitnesses.
